(** * A learning-management registry: validators, courses, registry, roles

    Shallow embedding of [final-project-oop.cpp].  The C++ program keeps
    its whole state in two globals (the [LMSManager] singleton and the
    [users] vector) and signals failure with exceptions, so the model is
    a state monad whose computations end normally, by a raised
    exception, or not at all.  A [Course&] is modelled as a place inside
    the enclosing state, which keeps apart the reference returned by
    [LMSManager::getCourse] from an element of a vector copied by value.

    Console output is not modelled; what the operator types is passed in
    as the arguments of the role operations.  The one message kept is the
    one [Student::viewGrades] ends with, which is the result of its
    model. *)

From Stdlib Require Import ZArith Lia Bool Ascii String.
From stdpp Require Import base option list strings.

Local Open Scope string_scope.
Local Open Scope list_scope.
Local Open Scope Z_scope.

(** ** Machine integers

    [int] is 32 bits, [size_t] 64 bits.  Lengths of strings and vectors
    are carried as [Z.of_nat (length _)]; arithmetic on them and
    conversions between the two types wrap as written below. *)

Module Int.

Definition int_min : Z := - 2 ^ 31.
Definition int_max : Z := 2 ^ 31 - 1.
Definition npos : Z := 2 ^ 64 - 1.

Definition in_int (z : Z) : Prop := int_min <= z <= int_max.

(** Unsigned 64-bit wrap-around ([size_t] arithmetic). *)
Definition wrap_size_t (z : Z) : Z := z mod 2 ^ 64.

(** Conversion of a [size_t] to [int], as an [int] parameter receives
    [v.size()]: reduction modulo [2^32] into the signed range. *)
Definition to_int (z : Z) : Z := (z + 2 ^ 31) mod 2 ^ 32 - 2 ^ 31.

(** [v.size()] of a vector, as a [size_t]. *)
Definition size {A : Type} (v : list A) : Z := Z.of_nat (length v).

(** [s.length()] of a string, as a [size_t]. *)
Definition slength (s : string) : Z := Z.of_nat (String.length s).

End Int.

(** ** Validator *)

Module Validator.

Import Int.

(** Offset of the first occurrence of [c], as [string::find] counts it. *)
Fixpoint find_first (c : ascii) (s : string) : option nat :=
  match s with
  | EmptyString => None
  | String a s' =>
      if Ascii.eqb a c then Some O else S <$> find_first c s'
  end.

(** Offset of the last occurrence of [c], as [string::rfind] counts it. *)
Fixpoint find_last (c : ascii) (s : string) : option nat :=
  match s with
  | EmptyString => None
  | String a s' =>
      match find_last c s' with
      | Some k => Some (S k)
      | None => if Ascii.eqb a c then Some O else None
      end
  end.

(** The [size_t] a search returns: the offset, or [npos]. *)
Definition position (o : option nat) : Z :=
  match o with
  | Some k => Z.of_nat k
  | None => npos
  end.

Definition find (s : string) (c : ascii) : Z := position (find_first c s).
Definition rfind (s : string) (c : ascii) : Z := position (find_last c s).

Definition isValidEmail (email : string) : bool :=
  let atPos := find email "@"%char in
  let dotPos := rfind email "."%char in
  negb (atPos =? npos) && negb (dotPos =? npos) &&
  (atPos <? dotPos) && (0 <? atPos) &&
  (dotPos <? wrap_size_t (slength email - 1)).

Definition isValidGrade (grade : Z) : bool :=
  (0 <=? grade) && (grade <=? 100).

Definition isValidIndex (index maxSize : Z) : bool :=
  (0 <=? index) && (index <? maxSize).

Definition isValidString (str : string) : bool :=
  negb (slength str =? 0) && (slength str <=? 100).

(** [getValidatedIntInput]: the loop keeps asking until a number within
    [min..max] is typed; [typed] lists the numbers entered.  [None]
    stands for a loop that never gets one. *)
Fixpoint getValidatedIntInput (typed : list Z) (min max : Z) : option Z :=
  match typed with
  | [] => None
  | input :: rest =>
      if (min <=? input) && (input <=? max) then Some input
      else getValidatedIntInput rest min max
  end.

End Validator.

(** ** Exceptions and the computation monad *)

Inductive exn : Type :=
| ValidationException (what : string)
| InvalidCourseIndexException
| out_of_range (what : string).

Inductive outcome (A : Type) : Type :=
| Normal (a : A)
| Raised (e : exn)
| Starved
| Undefined.

Arguments Normal {A} a.
Arguments Raised {A} e.
Arguments Starved {A}.
Arguments Undefined {A}.

(** A computation over a state [S]: how it ends, and the state it leaves.
    [Starved] is a prompt loop that never reads an acceptable value,
    [Undefined] an unchecked [operator[]] outside its vector. *)
Definition M (S A : Type) : Type := S -> outcome A * S.

Definition ret {S A} (a : A) : M S A := fun s => (Normal a, s).

Definition bind {S A B} (m : M S A) (k : A -> M S B) : M S B :=
  fun s =>
    match m s with
    | (Normal a, s') => k a s'
    | (Raised e, s') => (Raised e, s')
    | (Starved, s') => (Starved, s')
    | (Undefined, s') => (Undefined, s')
    end.

Definition throw {S A} (e : exn) : M S A := fun s => (Raised e, s).
Definition get {S} : M S S := fun s => (Normal s, s).
Definition modify {S} (f : S -> S) : M S unit := fun s => (Normal tt, f s).

(** [try { m } catch (...) { h }] *)
Definition try_catch {S A} (m : M S A) (h : exn -> M S A) : M S A :=
  fun s =>
    match m s with
    | (Raised e, s') => h e s'
    | r => r
    end.

Definition when {S} (b : bool) (m : M S unit) : M S unit :=
  if b then m else ret tt.

(** The value a prompt loop hands over, if it ever does. *)
Definition prompted {S A} (o : option A) : M S A :=
  fun s => match o with Some a => (Normal a, s) | None => (Starved, s) end.

Declare Scope cpp_scope.
Delimit Scope cpp_scope with cpp.
Notation "x <- m ;; k" := (bind m (fun x => k))
  (at level 20, m at level 99, k at level 200, only parsing) : cpp_scope.
Notation "m ;; k" := (bind m (fun _ => k))
  (at level 100, k at level 200, right associativity, only parsing) : cpp_scope.
Local Open Scope cpp_scope.

(** A reference into the state: where the referenced object lives and how
    an assignment through the reference lands there. *)
Record place (S T : Type) : Type :=
  Place { peek : S -> option T; poke : T -> S -> S }.
Arguments Place {S T} peek poke.
Arguments peek {S T} p s.
Arguments poke {S T} p t s.

(** Calling a method through a reference. *)
Definition through {S T A} (p : place S T) (m : M T A) : M S A :=
  fun s =>
    match peek p s with
    | Some t => let (r, t') := m t in (r, poke p t' s)
    | None => (Undefined, s)
    end.

(** A reference reached through another one. *)
Definition within {S T U} (p : place S T) (q : place T U) : place S U :=
  Place (fun s => match peek p s with
                  | Some t => peek q t
                  | None => None
                  end)
        (fun u s => match peek p s with
                    | Some t => poke p (poke q u t) s
                    | None => s
                    end).

(** [for (const auto& x : xs) body] *)
Fixpoint for_each {S A} (xs : list A) (body : A -> M S unit) : M S unit :=
  match xs with
  | [] => ret tt
  | x :: rest => body x ;; for_each rest body
  end.

(** ** Course *)

Record Course : Type := mkCourse {
  courseName : string;
  teacherEmail : string;
  contents : list string;
  grades : list (string * Z);
  enrolledStudents : list string
}.

Module Course.

Import Int Validator.

Definition set_contents (v : list string) (c : Course) : Course :=
  mkCourse (courseName c) (teacherEmail c) v (grades c) (enrolledStudents c).
Definition set_grades (v : list (string * Z)) (c : Course) : Course :=
  mkCourse (courseName c) (teacherEmail c) (contents c) v (enrolledStudents c).
Definition set_enrolledStudents (v : list string) (c : Course) : Course :=
  mkCourse (courseName c) (teacherEmail c) (contents c) (grades c) v.

(** The constructor [Course(courseName, teacherEmail)]. *)
Definition new {S} (name email : string) : M S Course :=
  when (negb (isValidString name))
    (throw (ValidationException "Invalid course name")) ;;
  when (negb (isValidEmail email))
    (throw (ValidationException "Invalid teacher email")) ;;
  ret (mkCourse name email [] [] []).

Definition addContent (content : string) : M Course unit :=
  when (negb (isValidString content))
    (throw (ValidationException "Invalid content")) ;;
  modify (fun c => set_contents (contents c ++ [content]) c).

Definition removeContent (index : Z) : M Course unit :=
  c <- get ;;
  when (negb (isValidIndex index (to_int (size (contents c)))))
    (throw InvalidCourseIndexException) ;;
  modify (fun c => set_contents (delete (Z.to_nat index) (contents c)) c).

Definition addGrade (studentEmail : string) (grade : Z) : M Course unit :=
  when (negb (isValidEmail studentEmail))
    (throw (ValidationException "Invalid student email")) ;;
  when (negb (isValidGrade grade))
    (throw (ValidationException "Invalid grade")) ;;
  modify (fun c => set_grades (grades c ++ [(studentEmail, grade)]) c).

Definition getGrades (c : Course) : list (string * Z) := grades c.

Definition enrollStudent (studentEmail : string) : M Course unit :=
  when (negb (isValidEmail studentEmail))
    (throw (ValidationException "Invalid student email")) ;;
  c <- get ;;
  for_each (enrolledStudents c) (fun enrolledEmail =>
    when (String.eqb enrolledEmail studentEmail)
      (throw (ValidationException "Student already enrolled"))) ;;
  modify (fun c => set_enrolledStudents (enrolledStudents c ++ [studentEmail]) c).

(** The iterator loop of [removeStudent]: [it] is the offset of the
    iterator, [rest] what lies from it to [end()]. *)
Fixpoint removeStudent_from (studentEmail : string) (it : nat)
    (rest : list string) : M Course unit :=
  match rest with
  | [] => throw (ValidationException "Student not found")
  | x :: rest' =>
      if String.eqb x studentEmail
      then modify (fun c =>
             set_enrolledStudents (delete it (enrolledStudents c)) c)
      else removeStudent_from studentEmail (S it) rest'
  end.

Definition removeStudent (studentEmail : string) : M Course unit :=
  c <- get ;;
  removeStudent_from studentEmail O (enrolledStudents c).

Definition getCourseName (c : Course) : string := courseName c.
Definition getTeacherEmail (c : Course) : string := teacherEmail c.
Definition getStudents (c : Course) : list string := enrolledStudents c.
Definition getContents (c : Course) : list string := contents c.

(** The mutating members, as one type, to speak of all of them. *)
Inductive method : Type :=
| AddContent (content : string)
| RemoveContent (index : Z)
| AddGrade (studentEmail : string) (grade : Z)
| EnrollStudent (studentEmail : string)
| RemoveStudent (studentEmail : string).

Definition call (m : method) : M Course unit :=
  match m with
  | AddContent content => addContent content
  | RemoveContent index => removeContent index
  | AddGrade studentEmail grade => addGrade studentEmail grade
  | EnrollStudent studentEmail => enrollStudent studentEmail
  | RemoveStudent studentEmail => removeStudent studentEmail
  end.

End Course.

(** ** LMSManager, the course registry *)

Record LMSManager : Type := mkLMSManager { courses : list Course }.

Module LMSManager.

Import Int Validator.

Definition addCourse (course : Course) : M LMSManager unit :=
  modify (fun m => mkLMSManager (courses m ++ [course])).

(** [courses[i]] as a reference. *)
Definition slot (i : nat) : place LMSManager Course :=
  Place (fun m => courses m !! i)
        (fun c m => mkLMSManager (<[i := c]> (courses m))).

Definition getCourse (index : Z) : M LMSManager (place LMSManager Course) :=
  m <- get ;;
  when (negb (isValidIndex index (to_int (size (courses m)))))
    (throw InvalidCourseIndexException) ;;
  ret (slot (Z.to_nat index)).

Definition removeCourse (index : Z) : M LMSManager unit :=
  m <- get ;;
  when (negb (isValidIndex index (to_int (size (courses m)))))
    (throw InvalidCourseIndexException) ;;
  modify (fun m => mkLMSManager (delete (Z.to_nat index) (courses m))).

Definition getCourses (m : LMSManager) : list Course := courses m.

End LMSManager.

(** ** Users and the global state *)

Inductive UserKind : Type := IsAdmin | IsTeacher | IsStudent.

Record User : Type := mkUser {
  kind : UserKind;
  username : string;
  email : string;
  password : string
}.

Definition getEmail (u : User) : string := email u.
Definition getPassword (u : User) : string := password u.

(** The two globals: [LMSManager::instance] and [users]. *)
Record World : Type := mkWorld {
  instance : LMSManager;
  users : list User
}.

(** [LMSManager::getInstance()] *)
Definition getInstance : place World LMSManager :=
  Place (fun w => Some (instance w))
        (fun m w => mkWorld m (users w)).

(** [users.push_back(u)] *)
Definition users_push_back (u : User) : M World unit :=
  modify (fun w => mkWorld (instance w) (users w ++ [u])).

(** [v.empty()] *)
Definition empty {A} (v : list A) : bool :=
  match v with [] => true | _ :: _ => false end.

(** A method called on a local object [obj]; the object as the call
    leaves it is handed on. *)
Definition on_object {S T} (obj : T) (m : M T unit) : M S T :=
  fun s =>
    match m obj with
    | (Normal _, obj') => (Normal obj', s)
    | (Raised e, _) => (Raised e, s)
    | (Starved, _) => (Starved, s)
    | (Undefined, _) => (Undefined, s)
    end.

(** [a - b] on [int]; a difference outside the range of [int] is a
    signed overflow, which is undefined. *)
Definition int_sub {S} (a b : Z) : M S Z :=
  fun s =>
    if (Int.int_min <=? a - b) && (a - b <=? Int.int_max)
    then (Normal (a - b), s)
    else (Undefined, s).

(** The exception classes derived from [runtime_error]:
    [ValidationException] and [InvalidCourseIndexException];
    [out_of_range] derives from [logic_error]. *)
Definition is_runtime_error (e : exn) : bool :=
  match e with
  | ValidationException _ => true
  | InvalidCourseIndexException => true
  | out_of_range _ => false
  end.

(** [tolower] on a [char], in the "C" locale. *)
Definition tolower (c : ascii) : ascii :=
  let n := nat_of_ascii c in
  if (65 <=? n)%nat && (n <=? 90)%nat then ascii_of_nat (n + 32) else c.

(** ** Admin *)

Module Admin.

Import Int Validator.

(** The loop of [enrollStudent] that asks for the student's email.
    [typed] lists what is entered at the prompt.  [Some email] leaves
    the loop with an email no user has; [None] is the [return] taken
    when a user already has it. *)
Fixpoint enrollStudent_email (typed : list string) : M World (option string) :=
  match typed with
  | [] => prompted None
  | studentEmail :: rest =>
      if isValidEmail studentEmail then
        w <- get ;;
        let studentExists :=
          existsb (fun user => String.eqb (getEmail user) studentEmail)
                  (users w) in
        if studentExists then ret None else ret (Some studentEmail)
      else enrollStudent_email rest
  end.

Definition enrollStudent (typedIndex : list Z) (typedEmail : list string)
    (studentPassword : string) : M World unit :=
  w <- get ;;
  let courses := LMSManager.getCourses (instance w) in
  if empty courses then ret tt else
  userIndex <- prompted (getValidatedIntInput typedIndex 1 (to_int (size courses))) ;;
  try_catch
    (course <- through getInstance (LMSManager.getCourse (userIndex - 1)) ;;
     asked <- enrollStudent_email typedEmail ;;
     match asked with
     | None => ret tt
     | Some studentEmail =>
         let newStudent :=
           mkUser IsStudent
             (String.substring 0 (Z.to_nat (find studentEmail "@"%char))
                               studentEmail)
             studentEmail studentPassword in
         users_push_back newStudent ;;
         through (within getInstance course)
                 (Course.enrollStudent studentEmail)
     end)
    (fun _ => ret tt).

Definition addCourse (courseName teacherEmail : string) (addTeacher : ascii)
    (teacherName teacherPassword : string) : M World unit :=
  w <- get ;;
  let teacherExists :=
    existsb (fun user => String.eqb (getEmail user) teacherEmail) (users w) in
  go_on <- (if negb teacherExists then
              if Ascii.eqb addTeacher "y" || Ascii.eqb addTeacher "Y" then
                let newTeacher :=
                  mkUser IsTeacher teacherName teacherEmail teacherPassword in
                users_push_back newTeacher ;; ret true
              else ret false
            else ret true) ;;
  if negb go_on then ret tt else
  w <- get ;;
  let courses := LMSManager.getCourses (instance w) in
  if existsb (fun course =>
                String.eqb (Course.getTeacherEmail course) teacherEmail)
             courses
  then ret tt else
  newCourse <- Course.new courseName teacherEmail ;;
  through getInstance (LMSManager.addCourse newCourse).

Definition removeStudent (userIndex : Z) (studentEmail : string) : M World unit :=
  w <- get ;;
  let courses := LMSManager.getCourses (instance w) in
  if empty courses then ret tt else
  try_catch
    (systemIndex <- int_sub userIndex 1 ;;
     course <- through getInstance (LMSManager.getCourse systemIndex) ;;
     c <- through (within getInstance course) get ;;
     if empty (Course.getStudents c) then ret tt else
     try_catch
       (through (within getInstance course) (Course.removeStudent studentEmail))
       (fun e => if is_runtime_error e then ret tt else throw e))
    (fun e =>
       match e with
       | InvalidCourseIndexException => ret tt
       | _ => throw e
       end).

Definition deleteCourse (index : Z) : M World unit :=
  w <- get ;;
  let courses := LMSManager.getCourses (instance w) in
  if empty courses then ret tt else
  try_catch
    (when ((index <? 1) || (size courses <? wrap_size_t index))
       (throw (out_of_range "Invalid index")) ;;
     courseToDelete <-
       through (within getInstance (LMSManager.slot (Z.to_nat (index - 1)))) get ;;
     through getInstance (LMSManager.removeCourse (index - 1)))
    (fun e =>
       match e with
       | InvalidCourseIndexException => ret tt
       | out_of_range _ => ret tt
       | _ => throw e
       end).

Definition editCourse (userIndex : Z) (choice : ascii) (contentChoice : Z)
    (content : string) (userContentIndex : Z) : M World unit :=
  w <- get ;;
  let courses := LMSManager.getCourses (instance w) in
  if empty courses then ret tt else
  try_catch
    (systemIndex <- int_sub userIndex 1 ;;
     course <- through getInstance (LMSManager.getCourse systemIndex) ;;
     if Ascii.eqb (tolower choice) "y" then
       if contentChoice =? 1 then
         through (within getInstance course) (Course.addContent content)
       else if contentChoice =? 2 then
         c <- through (within getInstance course) get ;;
         let contents := Course.getContents c in
         if empty contents then ret tt else
         try_catch
           (contentIndex <- int_sub userContentIndex 1 ;;
            through (within getInstance course)
                    (Course.removeContent contentIndex))
           (fun e =>
              match e with
              | out_of_range _ => ret tt
              | _ => throw e
              end)
       else ret tt
     else ret tt)
    (fun e =>
       match e with
       | InvalidCourseIndexException => ret tt
       | _ => throw e
       end).

End Admin.

(** ** Teacher *)

Module Teacher.

Import Int Validator.

(** The globals together with the local vector [assignedCourses] of
    [addGrade] and [addContent]. *)
Record Frame : Type := mkFrame {
  globals : World;
  assignedCourses : list Course
}.

Definition assignedCourses_push_back (course : Course) : M Frame unit :=
  modify (fun f => mkFrame (globals f) (assignedCourses f ++ [course])).

(** [assignedCourses[i]] as a reference: an element of the local vector. *)
Definition assigned (i : nat) : place Frame Course :=
  Place (fun f => assignedCourses f !! i)
        (fun c f => mkFrame (globals f) (<[i := c]> (assignedCourses f))).

(** The body of a member function that declares [assignedCourses]; the
    vector is gone when the function returns. *)
Definition scoped {A} (body : M Frame A) : M World A :=
  fun w => let (r, f) := body (mkFrame w []) in (r, globals f).

(** The loop that copies the caller's courses into [assignedCourses]. *)
Definition collect (self : User) : M Frame unit :=
  f <- get ;;
  for_each (LMSManager.getCourses (instance (globals f))) (fun course =>
    when (String.eqb (Course.getTeacherEmail course) (getEmail self))
      (assignedCourses_push_back course)).

(** The loop of [addGrade] that asks for an email until one is valid. *)
Fixpoint addGrade_email (typed : list string) : option string :=
  match typed with
  | [] => None
  | studentEmail :: rest =>
      if isValidEmail studentEmail then Some studentEmail
      else addGrade_email rest
  end.

Definition addGrade_body (self : User) (typedIndex : list Z)
    (typedEmail : list string) (typedGrade : list Z) : M Frame unit :=
  f <- get ;;
  if empty (LMSManager.getCourses (instance (globals f))) then ret tt else
  collect self ;;
  f <- get ;;
  if empty (assignedCourses f) then ret tt else
  courseIndex <- prompted (getValidatedIntInput typedIndex 1
                             (to_int (size (assignedCourses f)))) ;;
  try_catch
    (let course := assigned (Z.to_nat (courseIndex - 1)) in
     studentEmail <- prompted (addGrade_email typedEmail) ;;
     c <- through course get ;;
     let studentFound :=
       existsb (fun student => String.eqb student studentEmail)
               (Course.getStudents c) in
     if negb studentFound then ret tt else
     grade <- prompted (getValidatedIntInput typedGrade 0 100) ;;
     through course (Course.addGrade studentEmail grade))
    (fun _ => ret tt).

Definition addGrade (self : User) (typedIndex : list Z)
    (typedEmail : list string) (typedGrade : list Z) : M World unit :=
  scoped (addGrade_body self typedIndex typedEmail typedGrade).

Definition addContent_body (self : User) (typedIndex : list Z)
    (content : string) : M Frame unit :=
  f <- get ;;
  if empty (LMSManager.getCourses (instance (globals f))) then ret tt else
  collect self ;;
  f <- get ;;
  if empty (assignedCourses f) then ret tt else
  index <- prompted (getValidatedIntInput typedIndex 1
                       (to_int (size (assignedCourses f)))) ;;
  try_catch
    (let course := assigned (Z.to_nat (index - 1)) in
     through course (Course.addContent content))
    (fun _ => ret tt).

Definition addContent (self : User) (typedIndex : list Z)
    (content : string) : M World unit :=
  scoped (addContent_body self typedIndex content).

End Teacher.

(** ** Student *)

(** What [viewGrades] prints. *)
Inductive report : Type :=
| NotEnrolled
| WentBack
| YourGrade (courseName : string) (grade : Z)
| NoGradeAvailable
| ErrorViewingGrades.

Module Student.

Import Int Validator.

(** The globals together with the local vector of courses of the member
    function: [enrolledCourses] in [viewGrades], [unenrolledCourses] in
    [enrollInCourse]. *)
Record Frame : Type := mkFrame {
  globals : World;
  listed : list Course
}.

Definition listed_push_back (course : Course) : M Frame unit :=
  modify (fun f => mkFrame (globals f) (listed f ++ [course])).

(** An element of the local vector as a reference. *)
Definition chosen (i : nat) : place Frame Course :=
  Place (fun f => listed f !! i)
        (fun c f => mkFrame (globals f) (<[i := c]> (listed f))).

Definition scoped {A} (body : M Frame A) : M World A :=
  fun w => let (r, f) := body (mkFrame w []) in (r, globals f).

(** The inner loop over [course.getStudents()] that looks for the
    caller's email. *)
Definition enrolled_in (self : User) (course : Course) : bool :=
  existsb (fun studentEmail => String.eqb studentEmail (getEmail self))
          (Course.getStudents course).

(** The loop over [selectedCourse.getGrades()]: the first pair whose
    email is the caller's. *)
Fixpoint first_grade (email : string) (grades : list (string * Z)) : option Z :=
  match grades with
  | [] => None
  | grade :: rest =>
      if String.eqb (fst grade) email then Some (snd grade)
      else first_grade email rest
  end.

Definition viewGrades_body (self : User) (typedIndex : list Z) : M Frame report :=
  f <- get ;;
  for_each (LMSManager.getCourses (instance (globals f))) (fun course =>
    when (enrolled_in self course) (listed_push_back course)) ;;
  f <- get ;;
  if empty (listed f) then ret NotEnrolled else
  index <- prompted (getValidatedIntInput typedIndex 0
                       (to_int (size (listed f)))) ;;
  if index =? 0 then ret WentBack else
  try_catch
    (selectedCourse <- through (chosen (Z.to_nat (index - 1))) get ;;
     match first_grade (getEmail self) (Course.getGrades selectedCourse) with
     | Some grade => ret (YourGrade (Course.getCourseName selectedCourse) grade)
     | None => ret NoGradeAvailable
     end)
    (fun _ => ret ErrorViewingGrades).

Definition viewGrades (self : User) (typedIndex : list Z) : M World report :=
  scoped (viewGrades_body self typedIndex).

Definition enrollInCourse_body (self : User) (typedIndex : list Z) : M Frame unit :=
  f <- get ;;
  for_each (LMSManager.getCourses (instance (globals f))) (fun course =>
    when (negb (enrolled_in self course)) (listed_push_back course)) ;;
  f <- get ;;
  if empty (listed f) then ret tt else
  courseIndex <- prompted (getValidatedIntInput typedIndex 0
                             (to_int (size (listed f)))) ;;
  if courseIndex =? 0 then ret tt else
  try_catch
    (let course := chosen (Z.to_nat (courseIndex - 1)) in
     through course (Course.enrollStudent (getEmail self)))
    (fun _ => ret tt).

Definition enrollInCourse (self : User) (typedIndex : list Z) : M World unit :=
  scoped (enrollInCourse_body self typedIndex).

End Student.

(** ** Bootstrap: the seed data [main] installs before the login loop *)

Definition start : World := mkWorld (mkLMSManager []) [].

Definition main_seed : M World unit :=
  course1 <- Course.new "Mathematics" "teacher1@example.com" ;;
  course1 <- on_object course1 (Course.addContent "Introduction to Algebra") ;;
  course1 <- on_object course1 (Course.addContent "Advanced Calculus") ;;
  course2 <- Course.new "Physics" "teacher2@example.com" ;;
  course2 <- on_object course2 (Course.addContent "Newton's Laws") ;;
  course2 <- on_object course2 (Course.addContent "Thermodynamics") ;;
  through getInstance (LMSManager.addCourse course1) ;;
  through getInstance (LMSManager.addCourse course2) ;;
  users_push_back (mkUser IsAdmin "admin1" "admin1@example.com" "adminpass") ;;
  users_push_back (mkUser IsTeacher "teacher1" "teacher1@example.com" "teacherpass") ;;
  users_push_back (mkUser IsTeacher "teacher2" "teacher2@example.com" "teacherpass").

(** The state [main] reaches when seeding succeeds. *)
Definition seeded : World := snd (main_seed start).

(** ** How a call can end *)

(** The call ended by throwing a [ValidationException]. *)
Definition fails_validation {A S} (r : outcome A * S) : Prop :=
  exists what, fst r = Raised (ValidationException what).

(** The call ended by throwing an [InvalidCourseIndexException]. *)
Definition fails_index {A S} (r : outcome A * S) : Prop :=
  fst r = Raised InvalidCourseIndexException.

(** The object as a sequence of calls leaves it, whether the calls
    return or throw. *)
Definition after (ms : list Course.method) (c : Course) : Course :=
  fold_left (fun c m => snd (Course.call m c)) ms c.

(** The pattern of the admin operations:
    [Course& course = LMSManager::getInstance()->getCourse(index);]
    followed by a call on [course]. *)
Definition via_getCourse (index : Z) (m : M Course unit) : M World unit :=
  course <- through getInstance (LMSManager.getCourse index) ;;
  through (within getInstance course) m.

(** ** Sessions *)

(** The email and password check of the login loop of [main]: the first
    user that has both. *)
Fixpoint main_login (email password : string) (us : list User) : option User :=
  match us with
  | [] => None
  | user :: rest =>
      if String.eqb (getEmail user) email && String.eqb (getPassword user) password
      then Some user
      else main_login email password rest
  end.

(** The operations of the menus that can write, with what is typed. *)
Inductive operation : Type :=
| AdminAddCourse (courseName teacherEmail : string) (addTeacher : ascii)
    (teacherName teacherPassword : string)
| AdminEnrollStudent (typedIndex : list Z) (typedEmail : list string)
    (studentPassword : string)
| AdminRemoveStudent (userIndex : Z) (studentEmail : string)
| AdminDeleteCourse (index : Z)
| AdminEditCourse (userIndex : Z) (choice : ascii) (contentChoice : Z)
    (content : string) (userContentIndex : Z)
| TeacherAddGrade (self : User) (typedIndex : list Z)
    (typedEmail : list string) (typedGrade : list Z)
| TeacherAddContent (self : User) (typedIndex : list Z) (content : string)
| StudentEnrollInCourse (self : User) (typedIndex : list Z).

Definition perform (o : operation) : M World unit :=
  match o with
  | AdminAddCourse courseName teacherEmail addTeacher teacherName teacherPassword =>
      Admin.addCourse courseName teacherEmail addTeacher teacherName
        teacherPassword
  | AdminEnrollStudent typedIndex typedEmail studentPassword =>
      Admin.enrollStudent typedIndex typedEmail studentPassword
  | AdminRemoveStudent userIndex studentEmail =>
      Admin.removeStudent userIndex studentEmail
  | AdminDeleteCourse index => Admin.deleteCourse index
  | AdminEditCourse userIndex choice contentChoice content userContentIndex =>
      Admin.editCourse userIndex choice contentChoice content userContentIndex
  | TeacherAddGrade self typedIndex typedEmail typedGrade =>
      Teacher.addGrade self typedIndex typedEmail typedGrade
  | TeacherAddContent self typedIndex content =>
      Teacher.addContent self typedIndex content
  | StudentEnrollInCourse self typedIndex =>
      Student.enrollInCourse self typedIndex
  end.

(** Operations performed one after the other; an exception that leaves
    an operation ends the run, as it ends [main]. *)
Definition session (os : list operation) : M World unit :=
  for_each os perform.

(** ** Vocabulary of the statements *)

(** Some user has the email [e]. *)
Definition registered (w : World) (e : string) : Prop :=
  exists u, u ∈ users w /\ getEmail u = e.

(** The member functions that the operations call on a course of the
    registry: all but [addGrade], and [enrollStudent] only for the email
    of a user. *)
Definition registry_call (w : World) (m : Course.method) : Prop :=
  match m with
  | Course.AddGrade _ _ => False
  | Course.EnrollStudent e => registered w e
  | _ => True
  end.

(** What an operation can have done to the globals. *)
Inductive change : World -> World -> Prop :=
| change_none w : change w w
| change_user w u :
    ~ registered w (getEmail u) ->
    change w (mkWorld (instance w) (users w ++ [u]))
| change_call w i c m :
    courses (instance w) !! i = Some c ->
    registry_call w m ->
    change w
      (mkWorld
         (mkLMSManager (<[i := snd (Course.call m c)]> (courses (instance w))))
         (users w))
| change_add w name teacher :
    Validator.isValidString name = true ->
    Validator.isValidEmail teacher = true ->
    ~ teacher ∈ map Course.getTeacherEmail (courses (instance w)) ->
    registered w teacher ->
    change w
      (mkWorld
         (mkLMSManager
            (courses (instance w) ++ [mkCourse name teacher [] [] []]))
         (users w))
| change_delete w i :
    change w
      (mkWorld (mkLMSManager (delete i (courses (instance w)))) (users w))
| change_then w1 w2 w3 : change w1 w2 -> change w2 w3 -> change w1 w3.

(** The globals with course [i] of the registry replaced by [c']. *)
Definition set_course (i : nat) (c' : Course) (w : World) : World :=
  mkWorld (mkLMSManager (<[i := c']> (courses (instance w)))) (users w).

(** The globals without course [i] of the registry. *)
Definition without_course (i : nat) (w : World) : World :=
  mkWorld (mkLMSManager (delete i (courses (instance w)))) (users w).

(** A course as the constructor and the member functions leave it. *)
Definition course_sound (c : Course) : Prop :=
  Validator.isValidString (courseName c) = true /\
  Validator.isValidEmail (teacherEmail c) = true /\
  Forall (fun s => Validator.isValidString s = true) (contents c) /\
  NoDup (enrolledStudents c) /\
  Forall (fun e => Validator.isValidEmail e = true) (enrolledStudents c).

(** The globals as the operations keep them: no two users with one
    email, no two courses with one teacher, sound courses, and only
    emails of users as teachers and as enrolled students. *)
Record consistent (w : World) : Prop := mkConsistent {
  users_distinct : NoDup (map getEmail (users w));
  teachers_distinct :
    NoDup (map Course.getTeacherEmail (courses (instance w)));
  courses_sound : Forall course_sound (courses (instance w));
  students_registered :
    forall c e,
      c ∈ courses (instance w) -> e ∈ enrolledStudents c -> registered w e;
  teachers_registered :
    forall c, c ∈ courses (instance w) -> registered w (teacherEmail c)
}.

(** [viewGrades] ended by printing a grade. *)
Definition shows_grade (r : outcome report) : bool :=
  match r with
  | Normal (YourGrade _ _) => true
  | _ => false
  end.

(** The courses [viewGrades] lists for [self], in registry order. *)
Definition enrolled_courses (self : User) (cs : list Course) : list Course :=
  List.filter (Student.enrolled_in self) cs.

(** The courses [enrollInCourse] lists for [self], in registry order. *)
Definition unenrolled_courses (self : User) (cs : list Course) : list Course :=
  List.filter (fun course => negb (Student.enrolled_in self course)) cs.

(** [i] is the offset of the first [c] in [s]. *)
Definition first_at (c : ascii) (s : string) (i : nat) : Prop :=
  String.get i s = Some c /\ forall k, (k < i)%nat -> String.get k s <> Some c.

(** [j] is the offset of the last [c] in [s]. *)
Definition last_at (c : ascii) (s : string) (j : nat) : Prop :=
  String.get j s = Some c /\ forall k, (j < k)%nat -> String.get k s <> Some c.

(** An email as the specification words it: some '@' beyond offset 0,
    a '.' somewhere after it, and at least one character after that '.'. *)
Definition email_shape (e : string) : Prop :=
  exists i j : nat,
    (0 < i)%nat /\ String.get i e = Some "@"%char /\
    (i < j)%nat /\ String.get j e = Some "."%char /\
    (S j < String.length e)%nat.

(** The same shape, read on the first '@' and the last '.' of [e]. *)
Definition email_shape_first_last (e : string) : Prop :=
  exists i j : nat,
    first_at "@" e i /\ last_at "." e j /\
    (0 < i)%nat /\ (i < j)%nat /\ (S j < String.length e)%nat.

(** A computation of a teacher operation that leaves the globals as it
    found them, whatever it does to the local [assignedCourses]. *)
Definition keeps_globals {A} (m : M Teacher.Frame A) : Prop :=
  forall f, Teacher.globals (snd (m f)) = Teacher.globals f.

(** The courses [collect] copies for [self], in registry order. *)
Definition assigned_to (self : User) (cs : list Course) : list Course :=
  List.filter
    (fun course => String.eqb (Course.getTeacherEmail course) (getEmail self))
    cs.

(** * Properties *)

(** ** Offsets of characters *)

Section Offsets.

Import Validator.
Variable c : ascii.

Lemma get_beyond (s : string) (k : nat) :
  (String.length s <= k)%nat -> String.get k s = None.
Proof.
  revert k; induction s as [|a s IH]; intros k Hk; simpl in *.
  - reflexivity.
  - destruct k as [|k]; [lia|]. apply IH. lia.
Qed.

Lemma get_within (s : string) (k : nat) (x : ascii) :
  String.get k s = Some x -> (k < String.length s)%nat.
Proof.
  intros H. destruct (Nat.lt_ge_cases k (String.length s)) as [|Hge]; [assumption|].
  rewrite (get_beyond _ _ Hge) in H. discriminate.
Qed.

Lemma find_first_none (s : string) :
  find_first c s = None <-> forall k, String.get k s <> Some c.
Proof.
  induction s as [|a s IH]; simpl.
  - split; [intros _ k; destruct k; discriminate | reflexivity].
  - destruct (Ascii.eqb_spec a c) as [->|Hne].
    + split; [discriminate|]. intros H. destruct (H O). reflexivity.
    + destruct (find_first c s) as [i|]; simpl.
      * split; [discriminate|]. intros H.
        assert (Some i = None) as Habs; [|discriminate].
        apply IH. intros k. apply (H (S k)).
      * split; [|reflexivity]. intros _ [|k]; simpl.
        -- congruence.
        -- apply IH. reflexivity.
Qed.

Lemma find_first_some (s : string) (i : nat) :
  find_first c s = Some i <-> first_at c s i.
Proof.
  revert i; induction s as [|a s IH]; intros i; simpl.
  - split; [discriminate|]. intros [H _]. destruct i; discriminate.
  - destruct (Ascii.eqb_spec a c) as [->|Hne].
    + split.
      * intros [= <-]. split; [reflexivity|]. intros k Hk. lia.
      * intros [Hi Hlt]. destruct i as [|i]; [reflexivity|].
        destruct (Hlt O); [lia | reflexivity].
    + destruct (find_first c s) as [i'|]; simpl.
      * split.
        -- intros [= <-]. destruct (proj1 (IH i') eq_refl) as [Hg Hlt].
           split; [assumption|]. intros [|k] Hk; simpl; [congruence|].
           apply Hlt. lia.
        -- intros [Hi Hlt]. destruct i as [|i]; simpl in Hi; [congruence|].
           assert (Some i' = Some i) as Heq; [|congruence].
           apply IH. split; [assumption|].
           intros k Hk. apply (Hlt (S k)). lia.
      * split; [discriminate|]. intros [Hi Hlt].
        destruct i as [|i]; simpl in Hi; [congruence|].
        assert (None = Some i) as Habs; [|discriminate].
        apply IH. split; [assumption|]. intros k Hk. apply (Hlt (S k)). lia.
Qed.

Lemma find_last_none (s : string) :
  find_last c s = None <-> forall k, String.get k s <> Some c.
Proof.
  induction s as [|a s IH]; simpl.
  - split; [intros _ k; destruct k; discriminate | reflexivity].
  - destruct (find_last c s) as [j|].
    + split; [discriminate|]. intros H.
      assert (Some j = None) as Habs; [|discriminate].
      apply IH. intros k. apply (H (S k)).
    + destruct (Ascii.eqb_spec a c) as [->|Hne].
      * split; [discriminate|]. intros H. destruct (H O). reflexivity.
      * split; [|reflexivity]. intros _ [|k]; simpl; [congruence|].
        apply IH. reflexivity.
Qed.

Lemma find_last_some (s : string) (j : nat) :
  find_last c s = Some j <-> last_at c s j.
Proof.
  revert j; induction s as [|a s IH]; intros j; simpl.
  - split; [discriminate|]. intros [H _]. destruct j; discriminate.
  - pose proof (find_last_none s) as Hnone.
    destruct (find_last c s) as [j'|].
    + split.
      * intros [= <-]. destruct (proj1 (IH j') eq_refl) as [Hg Hgt].
        split; [assumption|]. intros [|k] Hk; [lia|]. simpl. apply Hgt. lia.
      * intros [Hj Hgt]. destruct j as [|j].
        -- destruct (proj1 (IH j') eq_refl) as [Hg _].
           destruct (Hgt (S j')); [lia | assumption].
        -- assert (Some j' = Some j) as Heq; [|congruence].
           apply IH. split; [assumption|].
           intros k Hk. apply (Hgt (S k)). lia.
    + pose proof (proj1 Hnone eq_refl) as Hno.
      destruct (Ascii.eqb_spec a c) as [->|Hne].
      * split.
        -- intros [= <-]. split; [reflexivity|].
           intros [|k] Hk; [lia|]. simpl. apply Hno.
        -- intros [Hj _]. destruct j as [|j]; [reflexivity|].
           simpl in Hj. destruct (Hno j Hj).
      * split; [discriminate|]. intros [Hj _].
        destruct j as [|j]; simpl in Hj; [congruence|].
        destruct (Hno j Hj).
Qed.

End Offsets.

(** ** Validator *)

Lemma isValidEmail_first_last (e : string) :
  Int.slength e < Int.npos ->
  Validator.isValidEmail e = true <-> email_shape_first_last e.
Proof.
  unfold Int.slength. intros Hlen.
  unfold Validator.isValidEmail, Validator.find, Validator.rfind, email_shape_first_last.
  pose proof (find_first_some "@" e) as Hat.
  pose proof (find_last_some "." e) as Hdot.
  assert (Hwrap : (0 < String.length e)%nat ->
            Int.wrap_size_t (Int.slength e - 1) = Z.of_nat (String.length e) - 1).
  { intros Hpos. unfold Int.wrap_size_t, Int.slength. apply Z.mod_small.
    unfold Int.npos in Hlen. lia. }
  destruct (Validator.find_first "@" e) as [i|]; simpl.
  2:{ split; [discriminate|]. intros (i & j & Hi & _).
      apply Hat in Hi. discriminate. }
  destruct (Validator.find_last "." e) as [j|]; simpl.
  2:{ split; [rewrite andb_false_r; discriminate|]. intros (i' & j & _ & Hj & _).
      apply Hdot in Hj. discriminate. }
  pose proof (proj1 (Hat i) eq_refl) as Hi.
  pose proof (proj1 (Hdot j) eq_refl) as Hj.
  pose proof (get_within _ _ _ (proj1 Hi)) as Hil.
  pose proof (get_within _ _ _ (proj1 Hj)) as Hjl.
  rewrite Hwrap by lia.
  rewrite !andb_true_iff, !negb_true_iff, !Z.eqb_neq, !Z.ltb_lt.
  split.
  - intros ((((_ & _) & Hij) & H0) & Hend).
    exists i, j. repeat split; try apply Hi; try apply Hj; lia.
  - intros (i' & j' & Hi' & Hj' & H0 & Hij & Hend).
    apply Hat in Hi'. apply Hdot in Hj'.
    injection Hi' as <-. injection Hj' as <-.
    unfold Int.npos in *. lia.
Qed.

(** What the first-and-last reading gives up: an '@' at offset 0 or a
    final '.' spoils an email that has the shape elsewhere. *)
Lemma email_shape_first_last_shape (e : string) :
  email_shape_first_last e -> email_shape e.
Proof.
  intros (i & j & [Hi _] & [Hj _] & H0 & Hij & Hend).
  exists i, j. auto.
Qed.

(** C4, as amended: an email is valid exactly when its first '@' lies
    beyond offset 0, its last '.' lies after that '@', and at least one
    character follows that last '.'. *)
Theorem isValidEmail_iff_first_at_last_dot (e : string) :
  Int.slength e < Int.npos ->
  (Validator.isValidEmail e = true <-> email_shape_first_last e) /\
  (Validator.isValidEmail e = true -> email_shape e).
Proof.
  intros Hlen. split.
  - apply isValidEmail_first_last, Hlen.
  - intros H. apply email_shape_first_last_shape.
    apply isValidEmail_first_last; assumption.
Qed.

Lemma isValidEmail_iff_first_at_last_dot_witness :
  (Validator.isValidEmail "a@b.co" = true <-> email_shape_first_last "a@b.co") /\
  (Validator.isValidEmail "a@b.co" = true -> email_shape "a@b.co").
Proof.
  apply (isValidEmail_iff_first_at_last_dot "a@b.co").
  vm_compute. reflexivity.
Defined.

(** C4, as worded, fails: "@a@b.c" has an '@' at offset 2, a '.' at
    offset 4 and a character after it, and is rejected because its first
    '@' is at offset 0; "a@b.c." is rejected for its final '.'. *)
Lemma isValidEmail_rejects_email_shape :
  (email_shape "@a@b.c" /\ Validator.isValidEmail "@a@b.c" = false) /\
  (email_shape "a@b.c." /\ Validator.isValidEmail "a@b.c." = false).
Proof.
  split; split; try reflexivity.
  - exists 2%nat, 4%nat. repeat split; simpl; lia.
  - exists 1%nat, 3%nat. repeat split; simpl; lia.
Qed.

(** ** Integer conversions *)

Lemma to_int_small (z : Z) : Int.in_int z -> Int.to_int z = z.
Proof.
  unfold Int.in_int, Int.int_min, Int.int_max, Int.to_int. intros H.
  rewrite Z.mod_small; lia.
Qed.

Lemma to_int_range (z : Z) : Int.in_int (Int.to_int z).
Proof.
  unfold Int.in_int, Int.int_min, Int.int_max, Int.to_int.
  pose proof (Z.mod_pos_bound (z + 2 ^ 31) (2 ^ 32)). lia.
Qed.

(** An index that is not an offset into [v] is not a valid index either,
    whatever the conversion of [v.size()] to [int] makes of the size. *)
Lemma isValidIndex_outside {A} (index : Z) (v : list A) :
  Int.in_int index ->
  ~ (0 <= index < Int.size v) ->
  Validator.isValidIndex index (Int.to_int (Int.size v)) = false.
Proof.
  intros Hint Hout. unfold Validator.isValidIndex.
  destruct (Z.leb_spec 0 index) as [H0|]; [|reflexivity]. simpl.
  apply Z.ltb_ge.
  destruct (Z.le_gt_cases (Int.size v) Int.int_max) as [Hsmall|Hbig].
  - rewrite to_int_small; [lia|].
    unfold Int.in_int, Int.int_min, Int.size in *. lia.
  - unfold Int.in_int in Hint. lia.
Qed.

Lemma isValidIndex_inside {A} (i : nat) (v : list A) :
  Int.size v <= Int.int_max ->
  (i < length v)%nat ->
  Validator.isValidIndex (Z.of_nat i) (Int.to_int (Int.size v)) = true.
Proof.
  intros Hsmall Hi. unfold Validator.isValidIndex.
  rewrite to_int_small.
  - unfold Int.size. apply andb_true_iff. split; [apply Z.leb_le | apply Z.ltb_lt]; lia.
  - unfold Int.in_int, Int.int_min, Int.size in *. lia.
Qed.

(** ** Course: what each member function does *)

Ltac unfold_monad :=
  unfold bind, ret, throw, when, modify, get, prompted, try_catch.

Lemma addContent_eq (content : string) (c : Course) :
  Course.addContent content c =
  if Validator.isValidString content
  then (Normal tt, Course.set_contents (contents c ++ [content]) c)
  else (Raised (ValidationException "Invalid content"), c).
Proof.
  unfold Course.addContent. unfold_monad.
  destruct (Validator.isValidString content); reflexivity.
Qed.

Lemma removeContent_eq (index : Z) (c : Course) :
  Course.removeContent index c =
  if Validator.isValidIndex index (Int.to_int (Int.size (contents c)))
  then (Normal tt, Course.set_contents (delete (Z.to_nat index) (contents c)) c)
  else (Raised InvalidCourseIndexException, c).
Proof.
  unfold Course.removeContent. unfold_monad.
  destruct (Validator.isValidIndex _ _); reflexivity.
Qed.

Lemma addGrade_eq (studentEmail : string) (grade : Z) (c : Course) :
  Course.addGrade studentEmail grade c =
  if Validator.isValidEmail studentEmail then
    if Validator.isValidGrade grade
    then (Normal tt, Course.set_grades (grades c ++ [(studentEmail, grade)]) c)
    else (Raised (ValidationException "Invalid grade"), c)
  else (Raised (ValidationException "Invalid student email"), c).
Proof.
  unfold Course.addGrade. unfold_monad.
  destruct (Validator.isValidEmail studentEmail); [|reflexivity].
  destruct (Validator.isValidGrade grade); reflexivity.
Qed.

(** The loop of [enrollStudent] throws at the first equal element. *)
Lemma for_each_already {S} (e : string) (x : exn) (l : list string) (s : S) :
  for_each l (fun enrolledEmail => when (String.eqb enrolledEmail e) (throw x)) s
  = if existsb (fun enrolledEmail => String.eqb enrolledEmail e) l
    then (Raised x, s) else (Normal tt, s).
Proof.
  induction l as [|a l IH]; simpl; [reflexivity|].
  unfold_monad. destruct (String.eqb a e); simpl; [reflexivity|].
  exact IH.
Qed.

Lemma existsb_eqb_elem_of (e : string) (l : list string) :
  existsb (fun x => String.eqb x e) l = true <-> e ∈ l.
Proof.
  rewrite existsb_exists, list_elem_of_In. split.
  - intros (x & Hin & Heq). apply String.eqb_eq in Heq. subst. assumption.
  - intros Hin. exists e. split; [assumption | apply String.eqb_refl].
Qed.

Lemma existsb_eqb_not_elem_of (e : string) (l : list string) :
  existsb (fun x => String.eqb x e) l = false <-> e ∉ l.
Proof.
  rewrite <- existsb_eqb_elem_of. destruct (existsb _ l); split; congruence.
Qed.

Lemma enrollStudent_eq (studentEmail : string) (c : Course) :
  Course.enrollStudent studentEmail c =
  if Validator.isValidEmail studentEmail then
    if existsb (fun x => String.eqb x studentEmail) (enrolledStudents c)
    then (Raised (ValidationException "Student already enrolled"), c)
    else (Normal tt,
          Course.set_enrolledStudents (enrolledStudents c ++ [studentEmail]) c)
  else (Raised (ValidationException "Invalid student email"), c).
Proof.
  unfold Course.enrollStudent.
  unfold bind at 1. unfold when at 1.
  destruct (Validator.isValidEmail studentEmail); simpl; [|reflexivity].
  unfold bind, get, ret. rewrite for_each_already.
  destruct (existsb _ _); reflexivity.
Qed.

Lemma removeStudent_from_absent (e : string) (rest : list string) :
  e ∉ rest -> forall it c,
  Course.removeStudent_from e it rest c =
  (Raised (ValidationException "Student not found"), c).
Proof.
  induction rest as [|x rest IH]; intros Hno it c; simpl; [reflexivity|].
  apply not_elem_of_cons in Hno as [Hne Hno].
  destruct (String.eqb_spec x e) as [->|_]; [congruence|].
  apply IH, Hno.
Qed.

Lemma removeStudent_from_present (e : string) (l1 l2 : list string) :
  e ∉ l1 -> forall pre c,
  enrolledStudents c = pre ++ l1 ++ e :: l2 ->
  Course.removeStudent_from e (length pre) (l1 ++ e :: l2) c =
  (Normal tt, Course.set_enrolledStudents (pre ++ l1 ++ l2) c).
Proof.
  induction l1 as [|x l1 IH]; intros Hno pre c Hc; simpl.
  - rewrite String.eqb_refl. unfold modify. simpl in Hc.
    rewrite Hc, delete_middle. reflexivity.
  - apply not_elem_of_cons in Hno as [Hne Hno].
    destruct (String.eqb_spec x e) as [->|_]; [congruence|].
    specialize (IH Hno (pre ++ [x]) c).
    rewrite length_app, Nat.add_1_r in IH. simpl in IH.
    rewrite <- !app_assoc in IH. simpl in IH. apply IH, Hc.
Qed.

Lemma removeStudent_absent (e : string) (c : Course) :
  e ∉ enrolledStudents c ->
  Course.removeStudent e c =
  (Raised (ValidationException "Student not found"), c).
Proof.
  intros Hno. unfold Course.removeStudent, bind, get.
  apply removeStudent_from_absent, Hno.
Qed.

Lemma removeStudent_present (e : string) (l1 l2 : list string) (c : Course) :
  enrolledStudents c = l1 ++ e :: l2 -> e ∉ l1 ->
  Course.removeStudent e c =
  (Normal tt, Course.set_enrolledStudents (l1 ++ l2) c).
Proof.
  intros Hc Hno. unfold Course.removeStudent, bind, get.
  rewrite Hc. apply (removeStudent_from_present e l1 l2 Hno [] c Hc).
Qed.

Lemma removeStudent_cases (e : string) (c : Course) :
  ((e ∉ enrolledStudents c) /\
   Course.removeStudent e c =
   (Raised (ValidationException "Student not found"), c)) \/
  (exists l1 l2,
     enrolledStudents c = l1 ++ e :: l2 /\ (e ∉ l1) /\
     Course.removeStudent e c =
     (Normal tt, Course.set_enrolledStudents (l1 ++ l2) c)).
Proof.
  destruct (decide (e ∈ enrolledStudents c)) as [Hin|Hno].
  - right. destruct (list_elem_of_split_l _ _ Hin) as (l1 & l2 & Hc & Hl1).
    exists l1, l2. auto using removeStudent_present.
  - left. auto using removeStudent_absent.
Qed.

(** Every member function leaves the name and the teacher alone, and
    touches the enrollment only by adding an absent email or removing
    one occurrence. *)
Lemma call_keeps_identity (m : Course.method) (c : Course) :
  courseName (snd (Course.call m c)) = courseName c /\
  teacherEmail (snd (Course.call m c)) = teacherEmail c.
Proof.
  destruct m as [content|index|e g|e|e]; simpl.
  - rewrite addContent_eq. destruct (Validator.isValidString _); auto.
  - rewrite removeContent_eq. destruct (Validator.isValidIndex _ _); auto.
  - rewrite addGrade_eq.
    destruct (Validator.isValidEmail e), (Validator.isValidGrade g); auto.
  - rewrite enrollStudent_eq.
    destruct (Validator.isValidEmail e); [destruct (existsb _ _)|]; auto.
  - destruct (removeStudent_cases e c) as [[_ ->]|(l1 & l2 & _ & _ & ->)]; auto.
Qed.

Lemma call_keeps_NoDup (m : Course.method) (c : Course) :
  NoDup (enrolledStudents c) ->
  NoDup (enrolledStudents (snd (Course.call m c))).
Proof.
  intros Hnd. destruct m as [content|index|e g|e|e]; simpl.
  - rewrite addContent_eq. destruct (Validator.isValidString _); assumption.
  - rewrite removeContent_eq. destruct (Validator.isValidIndex _ _); assumption.
  - rewrite addGrade_eq.
    destruct (Validator.isValidEmail e), (Validator.isValidGrade g); assumption.
  - rewrite enrollStudent_eq.
    destruct (Validator.isValidEmail _); [|assumption].
    destruct (existsb _ _) eqn:Hex; [assumption|]. simpl.
    apply existsb_eqb_not_elem_of in Hex.
    apply NoDup_app. split; [assumption|]. split; [|apply NoDup_singleton].
    intros x Hx Hxe. apply list_elem_of_singleton in Hxe. subst. contradiction.
  - destruct (removeStudent_cases e c) as [[_ ->]|(l1 & l2 & Hc & _ & ->)];
      [assumption|]. simpl.
    rewrite Hc in Hnd. apply NoDup_app in Hnd as (H1 & H12 & H2).
    apply NoDup_cons in H2 as [_ H2].
    apply NoDup_app. split; [assumption|]. split; [|assumption].
    intros x Hx Hx2. apply (H12 x Hx). right. assumption.
Qed.

Lemma after_keeps_NoDup (ms : list Course.method) (c : Course) :
  NoDup (enrolledStudents c) -> NoDup (enrolledStudents (after ms c)).
Proof.
  revert c. induction ms as [|m ms IH]; intros c Hnd; simpl; [assumption|].
  apply IH, call_keeps_NoDup, Hnd.
Qed.

(** C5: [enrollStudent] throws a [ValidationException] exactly when the
    email is invalid or already enrolled, and then leaves the course as it
    was; otherwise it appends the email.  Enrolling the same email again
    throws and leaves the enrollment as long as it was, and no member
    function of [Course], nor any sequence of them, breaks the absence of
    duplicates. *)
Theorem enrollStudent_refuses_duplicates (c : Course) (e : string) :
  (fails_validation (Course.enrollStudent e c) <->
     Validator.isValidEmail e = false \/ e ∈ enrolledStudents c) /\
  (fails_validation (Course.enrollStudent e c) ->
     snd (Course.enrollStudent e c) = c) /\
  (~ fails_validation (Course.enrollStudent e c) ->
     Course.enrollStudent e c =
     (Normal tt,
      Course.set_enrolledStudents (enrolledStudents c ++ [e]) c)) /\
  (let c1 := snd (Course.enrollStudent e c) in
   fails_validation (Course.enrollStudent e c1) /\
   snd (Course.enrollStudent e c1) = c1 /\
   length (Course.getStudents (snd (Course.enrollStudent e c1))) =
   length (Course.getStudents c1)) /\
  (forall m : Course.method,
     NoDup (enrolledStudents c) ->
     NoDup (enrolledStudents (snd (Course.call m c)))) /\
  (forall ms : list Course.method,
     NoDup (enrolledStudents c) ->
     NoDup (enrolledStudents (after ms c))).
Proof.
  assert (Hfail : forall c0,
    fails_validation (Course.enrollStudent e c0) <->
    Validator.isValidEmail e = false \/ e ∈ enrolledStudents c0).
  { intros c0. unfold fails_validation. rewrite enrollStudent_eq.
    destruct (Validator.isValidEmail e).
    - destruct (existsb _ _) eqn:Hex; simpl.
      + apply existsb_eqb_elem_of in Hex. split; eauto.
      + apply existsb_eqb_not_elem_of in Hex. split.
        * intros [what Hw]. discriminate.
        * intros [Hv|Hin]; [discriminate | contradiction].
    - simpl. split; eauto. }
  assert (Hsame : forall c0,
    fails_validation (Course.enrollStudent e c0) ->
    snd (Course.enrollStudent e c0) = c0).
  { intros c0. unfold fails_validation. rewrite enrollStudent_eq.
    destruct (Validator.isValidEmail e); [|reflexivity].
    destruct (existsb _ _); [reflexivity|]. intros [what Hw]. discriminate. }
  assert (Hagain :
    fails_validation (Course.enrollStudent e (snd (Course.enrollStudent e c)))).
  { apply Hfail. rewrite enrollStudent_eq.
    destruct (Validator.isValidEmail e) eqn:Hv; [|auto].
    destruct (existsb _ _) eqn:Hex; simpl.
    - right. apply existsb_eqb_elem_of, Hex.
    - right. apply elem_of_app. right. apply list_elem_of_singleton. reflexivity. }
  split; [apply Hfail|]. split; [apply Hsame|]. split; [|split; [|split]].
  - intros Hok. rewrite enrollStudent_eq.
    destruct (Validator.isValidEmail e) eqn:Hv.
    + destruct (existsb _ _) eqn:Hex; [|reflexivity].
      destruct Hok. apply Hfail. right. apply existsb_eqb_elem_of, Hex.
    + destruct Hok. apply Hfail. left. reflexivity.
  - cbv zeta. split; [exact Hagain|].
    rewrite (Hsame _ Hagain). split; reflexivity.
  - intros m. apply call_keeps_NoDup.
  - intros ms. apply after_keeps_NoDup.
Qed.

(** C6: [addGrade] throws a [ValidationException] exactly when the email
    is invalid or the grade lies outside 0..100, and then leaves the course
    as it was; how the call ends does not depend on the course, so not on
    who is enrolled; otherwise it appends the pair to the grades the course
    had, which become one longer.  A grade of 150 is refused, a grade of
    85 for "a@b.co" appended. *)
Theorem addGrade_appends_pair (c : Course) (e : string) (g : Z) :
  (fails_validation (Course.addGrade e g c) <->
     Validator.isValidEmail e = false \/ ~ (0 <= g <= 100)) /\
  (fails_validation (Course.addGrade e g c) ->
     snd (Course.addGrade e g c) = c) /\
  (forall c2 : Course,
     fst (Course.addGrade e g c) = fst (Course.addGrade e g c2)) /\
  (~ fails_validation (Course.addGrade e g c) ->
     Course.addGrade e g c =
       (Normal tt, Course.set_grades (grades c ++ [(e, g)]) c) /\
     Course.getGrades (snd (Course.addGrade e g c)) =
       Course.getGrades c ++ [(e, g)] /\
     length (Course.getGrades (snd (Course.addGrade e g c))) =
       S (length (Course.getGrades c)) /\
     enrolledStudents (snd (Course.addGrade e g c)) = enrolledStudents c) /\
  fails_validation (Course.addGrade "a@b.co" 150 c) /\
  Course.addGrade "a@b.co" 85 c =
    (Normal tt, Course.set_grades (grades c ++ [("a@b.co", 85)]) c).
Proof.
  assert (Hgrade : Validator.isValidGrade g = true <-> 0 <= g <= 100).
  { unfold Validator.isValidGrade.
    rewrite andb_true_iff, !Z.leb_le. reflexivity. }
  unfold fails_validation. rewrite !addGrade_eq.
  split; [|split; [|split; [|split; [|split]]]].
  - destruct (Validator.isValidEmail e); [|simpl; split; eauto].
    destruct (Validator.isValidGrade g) eqn:Hg; simpl.
    + split.
      * intros [what Hw]. discriminate.
      * intros [Hv|Hr]; [discriminate|]. destruct Hr. apply Hgrade. reflexivity.
    + split; [|eauto]. intros _. right. intros Hr.
      apply Hgrade in Hr. congruence.
  - destruct (Validator.isValidEmail e); [|reflexivity].
    destruct (Validator.isValidGrade g); [|reflexivity].
    intros [what Hw]. discriminate.
  - intros c2. rewrite addGrade_eq.
    destruct (Validator.isValidEmail e); [|reflexivity].
    destruct (Validator.isValidGrade g); reflexivity.
  - intros Hok.
    destruct (Validator.isValidEmail e); [|destruct Hok; simpl; eauto].
    destruct (Validator.isValidGrade g); [|destruct Hok; simpl; eauto].
    unfold Course.getGrades. simpl. rewrite length_app. simpl.
    repeat split. lia.
  - simpl. eauto.
  - reflexivity.
Qed.

(** ** Index-addressed operations *)

Lemma removeCourse_eq (index : Z) (m : LMSManager) :
  LMSManager.removeCourse index m =
  if Validator.isValidIndex index (Int.to_int (Int.size (courses m)))
  then (Normal tt, mkLMSManager (delete (Z.to_nat index) (courses m)))
  else (Raised InvalidCourseIndexException, m).
Proof.
  unfold LMSManager.removeCourse. unfold_monad.
  destruct (Validator.isValidIndex _ _); reflexivity.
Qed.

Lemma getCourse_eq (index : Z) (m : LMSManager) :
  LMSManager.getCourse index m =
  if Validator.isValidIndex index (Int.to_int (Int.size (courses m)))
  then (Normal (LMSManager.slot (Z.to_nat index)), m)
  else (Raised InvalidCourseIndexException, m).
Proof.
  unfold LMSManager.getCourse. unfold_monad.
  destruct (Validator.isValidIndex _ _); reflexivity.
Qed.

(** A call on the singleton that leaves the registry as it was leaves the
    globals as they were. *)
Lemma through_getInstance_same {A} (f : M LMSManager A) (w : World) (r : outcome A) :
  f (instance w) = (r, instance w) ->
  through getInstance f w = (r, w).
Proof.
  intros Hf. unfold through. simpl. rewrite Hf. destruct w; reflexivity.
Qed.

(** C7: an index outside the sequence makes [removeContent],
    [removeCourse] and [getCourse] throw
    [InvalidCourseIndexException], and the course, the registry and the
    globals are afterwards what they were. *)
Theorem index_outside_throws_and_keeps_state (index : Z) :
  Int.in_int index ->
  (forall c : Course,
     ~ (0 <= index < Int.size (contents c)) ->
     fails_index (Course.removeContent index c) /\
     snd (Course.removeContent index c) = c) /\
  (forall m : LMSManager,
     ~ (0 <= index < Int.size (courses m)) ->
     (fails_index (LMSManager.removeCourse index m) /\
      snd (LMSManager.removeCourse index m) = m) /\
     (fails_index (LMSManager.getCourse index m) /\
      snd (LMSManager.getCourse index m) = m)) /\
  (forall w : World,
     ~ (0 <= index < Int.size (courses (instance w))) ->
     through getInstance (LMSManager.removeCourse index) w =
       (Raised InvalidCourseIndexException, w) /\
     through getInstance (LMSManager.getCourse index) w =
       (Raised InvalidCourseIndexException, w)).
Proof.
  intros Hint. unfold fails_index. split; [|split].
  - intros c Hout. rewrite removeContent_eq.
    rewrite (isValidIndex_outside _ _ Hint Hout). auto.
  - intros m Hout. rewrite removeCourse_eq, getCourse_eq.
    rewrite (isValidIndex_outside _ _ Hint Hout). auto.
  - intros w Hout.
    split; apply through_getInstance_same.
    + rewrite removeCourse_eq, (isValidIndex_outside _ _ Hint Hout). reflexivity.
    + rewrite getCourse_eq, (isValidIndex_outside _ _ Hint Hout). reflexivity.
Qed.

Lemma index_outside_throws_and_keeps_state_witness :
  let c := mkCourse "Physics" "teacher2@example.com"
             ["Newton's Laws"; "Thermodynamics"] [] [] in
  fails_index (Course.removeContent 2 c) /\
  snd (Course.removeContent 2 c) = c.
Proof.
  intros c.
  apply (index_outside_throws_and_keeps_state 2).
  - unfold Int.in_int, Int.int_min, Int.int_max. lia.
  - unfold Int.size. simpl. lia.
Defined.

(** C8: [removeStudent] throws the [ValidationException] "Student not
    found" exactly when the email is not enrolled, and then leaves the
    course as it was; otherwise it takes the first occurrence of the
    email out of the enrollment, which under the no-duplicate invariant
    is the only one. *)
Theorem removeStudent_removes_or_throws (c : Course) (e : string) :
  (fails_validation (Course.removeStudent e c) <-> (e ∉ enrolledStudents c)) /\
  ((e ∉ enrolledStudents c) ->
     Course.removeStudent e c =
     (Raised (ValidationException "Student not found"), c)) /\
  ((e ∈ enrolledStudents c) ->
     exists l1 l2,
       enrolledStudents c = l1 ++ e :: l2 /\ (e ∉ l1) /\
       Course.removeStudent e c =
       (Normal tt, Course.set_enrolledStudents (l1 ++ l2) c)) /\
  ((e ∈ enrolledStudents c) -> NoDup (enrolledStudents c) ->
     (e ∉ enrolledStudents (snd (Course.removeStudent e c))) /\
     (forall x, x <> e ->
        x ∈ enrolledStudents c ->
        x ∈ enrolledStudents (snd (Course.removeStudent e c)))).
Proof.
  unfold fails_validation.
  destruct (removeStudent_cases e c) as [[Hno Heq]|(l1 & l2 & Hc & Hl1 & Heq)].
  - rewrite Heq. simpl. repeat split; eauto; contradiction.
  - assert (Hin : e ∈ enrolledStudents c).
    { rewrite Hc. apply elem_of_app. right. left. }
    rewrite Heq. simpl. split; [|split; [|split]].
    + split; [intros [what Hw]; discriminate | contradiction].
    + contradiction.
    + intros _. exists l1, l2. auto.
    + intros _ Hnd. rewrite Hc in Hnd |- *.
      apply NoDup_app in Hnd as (_ & H12 & H2).
      apply NoDup_cons in H2 as [He2 _]. split.
      * rewrite not_elem_of_app. auto.
      * intros x Hx. rewrite !elem_of_app, elem_of_cons. tauto.
Qed.

Lemma removeStudent_removes_or_throws_witness :
  let c := mkCourse "Physics" "teacher2@example.com" [] [] ["a@b.co"; "c@d.eu"] in
  Course.removeStudent "x@y.zz" c =
    (Raised (ValidationException "Student not found"), c).
Proof.
  intros c.
  apply (removeStudent_removes_or_throws c "x@y.zz").
  simpl. rewrite !not_elem_of_cons. repeat split; try discriminate.
  apply not_elem_of_nil.
Defined.

(** ** The identity of a course *)

Lemma new_eq {S} (name email : string) (s : S) :
  Course.new name email s =
  if Validator.isValidString name then
    if Validator.isValidEmail email
    then (Normal (mkCourse name email [] [] []), s)
    else (Raised (ValidationException "Invalid teacher email"), s)
  else (Raised (ValidationException "Invalid course name"), s).
Proof.
  unfold Course.new. unfold_monad.
  destruct (Validator.isValidString name); [|reflexivity].
  destruct (Validator.isValidEmail email); reflexivity.
Qed.

Lemma after_keeps_identity (ms : list Course.method) (c : Course) :
  courseName (after ms c) = courseName c /\
  teacherEmail (after ms c) = teacherEmail c.
Proof.
  revert c. induction ms as [|m ms IH]; intros c; simpl; [auto|].
  destruct (IH (snd (Course.call m c))) as [-> ->].
  apply call_keeps_identity.
Qed.

(** C10: the name and the teacher email a course is constructed with
    are what [getCourseName] and [getTeacherEmail] return after any
    sequence of calls of [addContent], [removeContent], [addGrade],
    [enrollStudent] and [removeStudent], returning or throwing. *)
Theorem name_and_teacher_stay_as_constructed
    (name email : string) (c0 : Course) (ms : list Course.method) :
  Course.new name email tt = (Normal c0, tt) ->
  Course.getCourseName (after ms c0) = name /\
  Course.getTeacherEmail (after ms c0) = email.
Proof.
  rewrite new_eq. intros Hnew.
  destruct (Validator.isValidString name); [|discriminate].
  destruct (Validator.isValidEmail email); [|discriminate].
  injection Hnew as <-.
  apply (after_keeps_identity ms (mkCourse name email [] [] [])).
Qed.

Lemma name_and_teacher_stay_as_constructed_witness :
  let ms := [Course.AddContent "Optics"; Course.RemoveContent 7;
             Course.EnrollStudent "a@b.co"; Course.EnrollStudent "a@b.co";
             Course.AddGrade "a@b.co" 150; Course.AddGrade "a@b.co" 85;
             Course.RemoveStudent "a@b.co"; Course.RemoveContent 0] in
  let c0 := mkCourse "Physics" "teacher2@example.com" [] [] [] in
  Course.getCourseName (after ms c0) = "Physics" /\
  Course.getTeacherEmail (after ms c0) = "teacher2@example.com".
Proof.
  intros ms c0.
  apply (name_and_teacher_stay_as_constructed
           "Physics" "teacher2@example.com" c0 ms).
  reflexivity.
Defined.

(** ** The bootstrapped registry *)

(** C9: seeding succeeds and leaves the courses "Mathematics" and
    "Physics", in that order, and an admin and two teachers as users;
    removing index 0 leaves "Physics" alone, removing index 0 again
    leaves no course, and a third removal at index 0 throws
    [InvalidCourseIndexException] and leaves the registry empty. *)
Theorem seeded_registry_deletions :
  main_seed start = (Normal tt, seeded) /\
  map Course.getCourseName (courses (instance seeded)) =
    ["Mathematics"; "Physics"] /\
  map kind (users seeded) = [IsAdmin; IsTeacher; IsTeacher] /\
  exists w1 w2 : World,
    through getInstance (LMSManager.removeCourse 0) seeded = (Normal tt, w1) /\
    map Course.getCourseName (courses (instance w1)) = ["Physics"] /\
    through getInstance (LMSManager.removeCourse 0) w1 = (Normal tt, w2) /\
    courses (instance w2) = [] /\
    through getInstance (LMSManager.removeCourse 0) w2 =
      (Raised InvalidCourseIndexException, w2) /\
    users w2 = users seeded.
Proof.
  split; [reflexivity|]. split; [reflexivity|]. split; [reflexivity|].
  eexists. eexists.
  split; [reflexivity|]. split; [reflexivity|]. split; [reflexivity|].
  split; [reflexivity|]. split; reflexivity.
Qed.

(** ** References into the registry and copies of its courses *)

Section KeepsGlobals.

Context {A B : Type}.

Lemma keeps_ret (a : A) : keeps_globals (ret a).
Proof. intros f. reflexivity. Qed.

Lemma keeps_throw (e : exn) : keeps_globals (@throw _ A e).
Proof. intros f. reflexivity. Qed.

Lemma keeps_prompted (o : option A) : keeps_globals (prompted o).
Proof. intros f. destruct o; reflexivity. Qed.

Lemma keeps_bind (m : M Teacher.Frame A) (k : A -> M Teacher.Frame B) :
  keeps_globals m -> (forall a, keeps_globals (k a)) ->
  keeps_globals (bind m k).
Proof.
  intros Hm Hk f. unfold bind. specialize (Hm f).
  destruct (m f) as [[a|e| |] f']; simpl in *; try assumption.
  rewrite Hk. assumption.
Qed.

Lemma keeps_try_catch (m : M Teacher.Frame A) (h : exn -> M Teacher.Frame A) :
  keeps_globals m -> (forall e, keeps_globals (h e)) ->
  keeps_globals (try_catch m h).
Proof.
  intros Hm Hh f. unfold try_catch. specialize (Hm f).
  destruct (m f) as [[a|e| |] f']; simpl in *; try assumption.
  rewrite Hh. assumption.
Qed.

Lemma keeps_if (b : bool) (m1 m2 : M Teacher.Frame A) :
  keeps_globals m1 -> keeps_globals m2 ->
  keeps_globals (if b then m1 else m2).
Proof. destruct b; auto. Qed.

(** A call through a reference to an element of the local vector. *)
Lemma keeps_through_assigned (i : nat) (m : M Course A) :
  keeps_globals (through (Teacher.assigned i) m).
Proof.
  intros f. unfold through. simpl.
  destruct (Teacher.assignedCourses f !! i) as [c|]; [|reflexivity].
  destruct (m c). reflexivity.
Qed.

End KeepsGlobals.

Lemma keeps_get : keeps_globals get.
Proof. intros f. reflexivity. Qed.

Lemma keeps_when (b : bool) (m : M Teacher.Frame unit) :
  keeps_globals m -> keeps_globals (when b m).
Proof. intros Hm. unfold when. apply keeps_if; [assumption | apply keeps_ret]. Qed.

Lemma keeps_push_back (course : Course) :
  keeps_globals (Teacher.assignedCourses_push_back course).
Proof. intros f. reflexivity. Qed.

Lemma keeps_for_each {X} (xs : list X) (body : X -> M Teacher.Frame unit) :
  (forall x, keeps_globals (body x)) -> keeps_globals (for_each xs body).
Proof.
  intros Hbody. induction xs as [|x xs IH]; simpl.
  - apply keeps_ret.
  - apply keeps_bind; auto.
Qed.

Create HintDb frame.
#[local] Hint Resolve keeps_ret keeps_throw keeps_prompted keeps_get
  keeps_push_back keeps_through_assigned : frame.
#[local] Hint Extern 2 (keeps_globals (bind _ _)) =>
  apply keeps_bind; [|intros] : frame.
#[local] Hint Extern 2 (keeps_globals (try_catch _ _)) =>
  apply keeps_try_catch; [|intros] : frame.
#[local] Hint Extern 2 (keeps_globals (if _ then _ else _)) =>
  apply keeps_if : frame.
#[local] Hint Extern 2 (keeps_globals (when _ _)) => apply keeps_when : frame.
#[local] Hint Extern 2 (keeps_globals (for_each _ _)) =>
  apply keeps_for_each; intros : frame.

Lemma keeps_collect (self : User) : keeps_globals (Teacher.collect self).
Proof. unfold Teacher.collect. auto 10 with frame. Qed.

Lemma keeps_addGrade_body (self : User) (typedIndex : list Z)
    (typedEmail : list string) (typedGrade : list Z) :
  keeps_globals (Teacher.addGrade_body self typedIndex typedEmail typedGrade).
Proof.
  unfold Teacher.addGrade_body.
  pose proof (keeps_collect self). auto 20 with frame.
Qed.

Lemma keeps_addContent_body (self : User) (typedIndex : list Z) (content : string) :
  keeps_globals (Teacher.addContent_body self typedIndex content).
Proof.
  unfold Teacher.addContent_body.
  pose proof (keeps_collect self). auto 20 with frame.
Qed.

Lemma scoped_keeps {A} (body : M Teacher.Frame A) (w : World) :
  keeps_globals body -> snd (Teacher.scoped body w) = w.
Proof.
  intros Hbody. unfold Teacher.scoped.
  specialize (Hbody (Teacher.mkFrame w [])).
  destruct (body _) as [r f]. exact Hbody.
Qed.

Lemma for_each_collect (self : User) (cs : list Course) (f : Teacher.Frame) :
  for_each cs (fun course =>
    when (String.eqb (Course.getTeacherEmail course) (getEmail self))
      (Teacher.assignedCourses_push_back course)) f
  = (Normal tt,
     Teacher.mkFrame (Teacher.globals f)
       (Teacher.assignedCourses f ++ assigned_to self cs)).
Proof.
  revert f. induction cs as [|course cs IH]; intros f; simpl.
  - rewrite app_nil_r. destruct f; reflexivity.
  - unfold bind, when.
    destruct (String.eqb (Course.getTeacherEmail course) (getEmail self)); simpl.
    + rewrite IH. simpl. rewrite <- app_assoc. reflexivity.
    + rewrite IH. reflexivity.
Qed.

Lemma collect_eq (self : User) (w : World) :
  Teacher.collect self (Teacher.mkFrame w [])
  = (Normal tt, Teacher.mkFrame w (assigned_to self (courses (instance w)))).
Proof.
  unfold Teacher.collect, bind, get. simpl. apply for_each_collect.
Qed.

Lemma assigned_nonempty (self : User) (cs : list Course) (k : nat) (c : Course) :
  assigned_to self cs !! k = Some c ->
  empty cs = false /\ empty (assigned_to self cs) = false.
Proof.
  intros Hk. split.
  - destruct cs; [discriminate | reflexivity].
  - destruct (assigned_to self cs); [discriminate | reflexivity].
Qed.

(** The content a teacher adds lands in the copy inside
    [assignedCourses]. *)
Lemma addContent_body_mutates_copy (self : User) (w : World)
    (typedIndex : list Z) (content : string) (k : nat) (c : Course) :
  assigned_to self (courses (instance w)) !! k = Some c ->
  Validator.getValidatedIntInput typedIndex 1
    (Int.to_int (Int.size (assigned_to self (courses (instance w)))))
    = Some (Z.of_nat k + 1) ->
  Validator.isValidString content = true ->
  Teacher.addContent_body self typedIndex content (Teacher.mkFrame w [])
  = (Normal tt,
     Teacher.mkFrame w
       (<[k := Course.set_contents (contents c ++ [content]) c]>
          (assigned_to self (courses (instance w))))).
Proof.
  intros Hk Hidx Hvalid.
  destruct (assigned_nonempty _ _ _ _ Hk) as [Hcs Hcopies].
  unfold Teacher.addContent_body.
  unfold bind at 1. unfold get at 1. simpl.
  unfold LMSManager.getCourses. rewrite Hcs.
  unfold bind at 1. rewrite collect_eq.
  unfold bind at 1. unfold get at 1. simpl. rewrite Hcopies.
  unfold bind at 1. rewrite Hidx. simpl.
  replace (Z.to_nat (Z.of_nat k + 1 - 1)) with k by lia.
  unfold try_catch, through. simpl. rewrite Hk.
  rewrite addContent_eq, Hvalid. reflexivity.
Qed.

(** The grade a teacher adds lands in the copy inside
    [assignedCourses]. *)
Lemma addGrade_body_mutates_copy (self : User) (w : World)
    (typedIndex : list Z) (typedEmail : list string) (typedGrade : list Z)
    (k : nat) (c : Course) (e : string) (g : Z) :
  assigned_to self (courses (instance w)) !! k = Some c ->
  Validator.getValidatedIntInput typedIndex 1
    (Int.to_int (Int.size (assigned_to self (courses (instance w)))))
    = Some (Z.of_nat k + 1) ->
  Teacher.addGrade_email typedEmail = Some e ->
  Validator.isValidEmail e = true ->
  e ∈ enrolledStudents c ->
  Validator.getValidatedIntInput typedGrade 0 100 = Some g ->
  Validator.isValidGrade g = true ->
  Teacher.addGrade_body self typedIndex typedEmail typedGrade
    (Teacher.mkFrame w [])
  = (Normal tt,
     Teacher.mkFrame w
       (<[k := Course.set_grades (grades c ++ [(e, g)]) c]>
          (assigned_to self (courses (instance w))))).
Proof.
  intros Hk Hidx Hemail Hvalid Hin Hgrade Hg.
  destruct (assigned_nonempty _ _ _ _ Hk) as [Hcs Hcopies].
  apply existsb_eqb_elem_of in Hin.
  unfold Teacher.addGrade_body.
  unfold bind at 1. unfold get at 1. simpl.
  unfold LMSManager.getCourses. rewrite Hcs.
  unfold bind at 1. rewrite collect_eq.
  unfold bind at 1. unfold get at 1. simpl. rewrite Hcopies.
  unfold bind at 1. rewrite Hidx. simpl.
  replace (Z.to_nat (Z.of_nat k + 1 - 1)) with k by lia.
  unfold try_catch, bind, through, get. rewrite Hemail. simpl. rewrite Hk.
  simpl. rewrite list_insert_id by assumption.
  unfold Course.getStudents. rewrite Hin. simpl.
  rewrite Hgrade. simpl. rewrite Hk.
  rewrite addGrade_eq, Hvalid, Hg. reflexivity.
Qed.

(** A call through the reference [getCourse] returns lands in the
    registry. *)
Lemma via_getCourse_lands (w : World) (i : nat) (c c' : Course)
    (m : M Course unit) (r : outcome unit) :
  courses (instance w) !! i = Some c ->
  Int.size (courses (instance w)) <= Int.int_max ->
  m c = (r, c') ->
  via_getCourse (Z.of_nat i) m w =
  (r, mkWorld (mkLMSManager (<[i := c']> (courses (instance w)))) (users w)).
Proof.
  intros Hi Hsmall Hm.
  unfold via_getCourse, bind, through. simpl.
  rewrite getCourse_eq.
  rewrite isValidIndex_inside by eauto using lookup_lt_Some.
  simpl. rewrite Nat2Z.id, Hi, Hm. reflexivity.
Qed.

(** The converted size never exceeds the size. *)
Lemma to_int_size_le {A} (v : list A) : Int.to_int (Int.size v) <= Int.size v.
Proof.
  destruct (Z.le_gt_cases (Int.size v) Int.int_max) as [Hsmall|Hbig].
  - rewrite to_int_small; [lia|].
    unfold Int.in_int, Int.int_min, Int.size in *. lia.
  - pose proof (to_int_range (Int.size v)) as [_ Hr]. lia.
Qed.

(** A member function that returns has changed the course. *)
Lemma call_changes (m : Course.method) (c c' : Course) :
  Course.call m c = (Normal tt, c') -> c' <> c.
Proof.
  destruct m as [content|index|e g|e|e]; simpl.
  - rewrite addContent_eq. destruct (Validator.isValidString content); [|discriminate].
    intros [= <-] Heq. apply (f_equal (fun x => length (contents x))) in Heq.
    simpl in Heq. rewrite length_app in Heq. simpl in Heq. lia.
  - rewrite removeContent_eq.
    destruct (Validator.isValidIndex _ _) eqn:Hv; [|discriminate].
    intros [= <-] Heq. apply (f_equal (fun x => length (contents x))) in Heq.
    simpl in Heq. unfold Validator.isValidIndex in Hv.
    apply andb_true_iff in Hv as [H0 Hlt].
    apply Z.leb_le in H0. apply Z.ltb_lt in Hlt.
    pose proof (to_int_size_le (contents c)) as Hle. unfold Int.size in *.
    rewrite length_delete in Heq; [lia|].
    apply lookup_lt_is_Some. lia.
  - rewrite addGrade_eq.
    destruct (Validator.isValidEmail e); [|discriminate].
    destruct (Validator.isValidGrade g); [|discriminate].
    intros [= <-] Heq. apply (f_equal (fun x => length (grades x))) in Heq.
    simpl in Heq. rewrite length_app in Heq. simpl in Heq. lia.
  - rewrite enrollStudent_eq.
    destruct (Validator.isValidEmail e); [|discriminate].
    destruct (existsb _ _); [discriminate|].
    intros [= <-] Heq.
    apply (f_equal (fun x => length (enrolledStudents x))) in Heq.
    simpl in Heq. rewrite length_app in Heq. simpl in Heq. lia.
  - destruct (removeStudent_cases e c) as [[_ ->]|(l1 & l2 & Hc & _ & ->)];
      [discriminate|].
    intros [= <-] Heq.
    apply (f_equal (fun x => length (enrolledStudents x))) in Heq.
    simpl in Heq. rewrite Hc, !length_app in Heq. simpl in Heq. lia.
Qed.

(** C1: a member function called through the reference that
    [getCourse(i)] returns, and returning, replaces course [i] of the
    registry by the course it produced, which differs from the one that
    was there; [Teacher::addGrade] and [Teacher::addContent], which call on
    an element of the copied [assignedCourses]
    ([addGrade_body_mutates_copy], [addContent_body_mutates_copy]), leave
    the registry's course sequence as it was. *)
Theorem registry_reference_persists_copy_does_not
    (w : World) (i : nat) (c c' : Course) (m : Course.method)
    (self : User) (typedIndex : list Z) (typedEmail : list string)
    (typedGrade : list Z) (content : string) :
  courses (instance w) !! i = Some c ->
  Int.size (courses (instance w)) <= Int.int_max ->
  Course.call m c = (Normal tt, c') ->
  (via_getCourse (Z.of_nat i) (Course.call m) w =
     (Normal tt,
      mkWorld (mkLMSManager (<[i := c']> (courses (instance w)))) (users w)) /\
   <[i := c']> (courses (instance w)) <> courses (instance w)) /\
  courses (instance
    (snd (Teacher.addGrade self typedIndex typedEmail typedGrade w)))
    = courses (instance w) /\
  courses (instance (snd (Teacher.addContent self typedIndex content w)))
    = courses (instance w).
Proof.
  intros Hi Hsmall Hm. split; [split|split].
  - apply (via_getCourse_lands w i c c' _ _ Hi Hsmall Hm).
  - intros Heq. apply (call_changes m c c' Hm).
    apply (f_equal (fun l => l !! i)) in Heq.
    rewrite list_lookup_insert_eq in Heq by eauto using lookup_lt_Some.
    congruence.
  - unfold Teacher.addGrade.
    rewrite scoped_keeps; [reflexivity | apply keeps_addGrade_body].
  - unfold Teacher.addContent.
    rewrite scoped_keeps; [reflexivity | apply keeps_addContent_body].
Qed.

Lemma registry_reference_persists_copy_does_not_witness :
  let physics := mkCourse "Physics" "teacher2@example.com"
                   ["Newton's Laws"; "Thermodynamics"] [] [] in
  let physics' := mkCourse "Physics" "teacher2@example.com"
                    ["Newton's Laws"; "Thermodynamics"; "Optics"] [] [] in
  let teacher2 := mkUser IsTeacher "teacher2" "teacher2@example.com"
                    "teacherpass" in
  (via_getCourse 1 (Course.addContent "Optics") seeded =
     (Normal tt,
      mkWorld (mkLMSManager (<[1%nat := physics']> (courses (instance seeded))))
              (users seeded)) /\
   <[1%nat := physics']> (courses (instance seeded)) <> courses (instance seeded)) /\
  courses (instance (snd (Teacher.addGrade teacher2 [1] ["a@b.co"] [85] seeded)))
    = courses (instance seeded) /\
  courses (instance (snd (Teacher.addContent teacher2 [1] "Optics" seeded)))
    = courses (instance seeded).
Proof.
  intros physics physics' teacher2.
  apply (registry_reference_persists_copy_does_not
           seeded 1 physics physics' (Course.AddContent "Optics")
           teacher2 [1] ["a@b.co"] [85] "Optics").
  - reflexivity.
  - unfold Int.size, Int.int_max. simpl. lia.
  - reflexivity.
Defined.

(** On the seeded registry: the content teacher2 adds to "Physics"
    reaches the copy and not the registry, while the same call through
    [getCourse] reaches the registry. *)
Example teacher_addContent_on_seeded :
  let teacher2 := mkUser IsTeacher "teacher2" "teacher2@example.com"
                    "teacherpass" in
  let f := snd (Teacher.addContent_body teacher2 [1] "Optics"
                  (Teacher.mkFrame seeded [])) in
  map contents (Teacher.assignedCourses f) =
    [["Newton's Laws"; "Thermodynamics"; "Optics"]] /\
  map contents (courses (instance (Teacher.globals f))) =
    [["Introduction to Algebra"; "Advanced Calculus"];
     ["Newton's Laws"; "Thermodynamics"]] /\
  map contents
    (courses (instance (snd (via_getCourse 1 (Course.addContent "Optics") seeded))))
  = [["Introduction to Algebra"; "Advanced Calculus"];
     ["Newton's Laws"; "Thermodynamics"; "Optics"]].
Proof. repeat split. Qed.

(** ** Admin operations *)

Lemma getValidatedIntInput_first (x : Z) (rest : list Z) (min max : Z) :
  min <= x <= max ->
  Validator.getValidatedIntInput (x :: rest) min max = Some x.
Proof.
  intros [Hmin Hmax]. simpl.
  apply Z.leb_le in Hmin. apply Z.leb_le in Hmax.
  rewrite Hmin, Hmax. reflexivity.
Qed.

Lemma existsb_email (e : string) (us : list User) :
  existsb (fun user => String.eqb (getEmail user) e) us = true <->
  exists u, u ∈ us /\ getEmail u = e.
Proof.
  rewrite existsb_exists. split.
  - intros (u & Hin & Heq). exists u. rewrite list_elem_of_In.
    apply String.eqb_eq in Heq. auto.
  - intros (u & Hin & Heq). exists u. rewrite <- list_elem_of_In.
    split; [assumption | apply String.eqb_eq, Heq].
Qed.

Lemma enrollStudent_email_first (e : string) (rest : list string) (w : World) :
  Validator.isValidEmail e = true ->
  Admin.enrollStudent_email (e :: rest) w =
  if existsb (fun user => String.eqb (getEmail user) e) (users w)
  then (Normal None, w) else (Normal (Some e), w).
Proof.
  intros Hv. simpl. rewrite Hv. unfold bind, get, ret.
  destruct (existsb _ _); reflexivity.
Qed.

Lemma admin_enrollStudent_eq
    (w : World) (userIndex : Z) (typedIndex : list Z) (e : string)
    (typedEmail : list string) (studentPassword : string) (c : Course) :
  1 <= userIndex <= Int.size (courses (instance w)) ->
  Int.size (courses (instance w)) <= Int.int_max ->
  courses (instance w) !! Z.to_nat (userIndex - 1) = Some c ->
  Validator.isValidEmail e = true ->
  Admin.enrollStudent (userIndex :: typedIndex) (e :: typedEmail)
    studentPassword w =
  if existsb (fun user => String.eqb (getEmail user) e) (users w)
  then (Normal tt, w)
  else
    let newStudent :=
      mkUser IsStudent
        (String.substring 0 (Z.to_nat (Validator.find e "@"%char)) e)
        e studentPassword in
    if existsb (fun x => String.eqb x e) (enrolledStudents c)
    then (Normal tt, mkWorld (instance w) (users w ++ [newStudent]))
    else (Normal tt,
          mkWorld
            (mkLMSManager
               (<[Z.to_nat (userIndex - 1) :=
                    Course.set_enrolledStudents (enrolledStudents c ++ [e]) c]>
                  (courses (instance w))))
            (users w ++ [newStudent])).
Proof.
  intros Hidx Hsmall Hc Hv.
  assert (Hcs : empty (courses (instance w)) = false).
  { destruct (courses (instance w)); [discriminate | reflexivity]. }
  assert (Hin_int : Int.in_int (Int.size (courses (instance w)))).
  { unfold Int.in_int, Int.int_min, Int.size in *. lia. }
  assert (Hvalid : Validator.isValidIndex (userIndex - 1)
            (Int.to_int (Int.size (courses (instance w)))) = true).
  { rewrite to_int_small by assumption. unfold Validator.isValidIndex.
    apply andb_true_iff. split; [apply Z.leb_le | apply Z.ltb_lt]; lia. }
  unfold Admin.enrollStudent, LMSManager.getCourses.
  unfold bind, get, try_catch, prompted, through, users_push_back, modify, ret.
  cbn [peek poke getInstance within LMSManager.slot instance users].
  rewrite Hcs.
  rewrite getValidatedIntInput_first by (rewrite to_int_small; assumption).
  rewrite getCourse_eq, Hvalid.
  replace (mkWorld (instance w) (users w)) with w by (destruct w; reflexivity).
  rewrite (enrollStudent_email_first _ _ _ Hv).
  destruct (existsb _ (users w)); [reflexivity|].
  cbn [peek poke LMSManager.slot instance users courses]. rewrite Hc.
  rewrite enrollStudent_eq, Hv.
  destruct (existsb _ (enrolledStudents c)); [|reflexivity].
  rewrite list_insert_id by assumption.
  destruct w as [[cs] us]. reflexivity.
Qed.

(** C3, as amended: with a valid email typed first and the index of an
    existing course, [Admin::enrollStudent] adds a Student user and
    appends the email to the course's enrollment when no user has the
    email and the course does not list it, and changes nothing when a
    user already has the email. *)
Theorem admin_enrollStudent_only_new_emails
    (w : World) (userIndex : Z) (typedIndex : list Z) (e : string)
    (typedEmail : list string) (studentPassword : string) (c : Course) :
  1 <= userIndex <= Int.size (courses (instance w)) ->
  Int.size (courses (instance w)) <= Int.int_max ->
  courses (instance w) !! Z.to_nat (userIndex - 1) = Some c ->
  Validator.isValidEmail e = true ->
  ((forall u, u ∈ users w -> getEmail u <> e) ->
   (e ∉ enrolledStudents c) ->
   Admin.enrollStudent (userIndex :: typedIndex) (e :: typedEmail)
     studentPassword w =
   (Normal tt,
    mkWorld
      (mkLMSManager
         (<[Z.to_nat (userIndex - 1) :=
              Course.set_enrolledStudents (enrolledStudents c ++ [e]) c]>
            (courses (instance w))))
      (users w ++
       [mkUser IsStudent
          (String.substring 0 (Z.to_nat (Validator.find e "@"%char)) e)
          e studentPassword]))) /\
  ((exists u, u ∈ users w /\ getEmail u = e) ->
   Admin.enrollStudent (userIndex :: typedIndex) (e :: typedEmail)
     studentPassword w = (Normal tt, w)).
Proof.
  intros Hidx Hsmall Hc Hv.
  pose proof (admin_enrollStudent_eq w userIndex typedIndex e typedEmail
                studentPassword c Hidx Hsmall Hc Hv) as Heq.
  split.
  - intros Hnew Hfresh. rewrite Heq.
    destruct (existsb _ (users w)) eqn:Hex.
    { apply existsb_email in Hex as (u & Hu & Hue). destruct (Hnew u Hu Hue). }
    apply existsb_eqb_not_elem_of in Hfresh. cbv zeta. rewrite Hfresh.
    reflexivity.
  - intros Hold. rewrite Heq. apply existsb_email in Hold. rewrite Hold.
    reflexivity.
Qed.

Lemma admin_enrollStudent_only_new_emails_witness :
  Admin.enrollStudent [1] ["s@x.y"] "pw" seeded =
  (Normal tt,
   mkWorld
     (mkLMSManager
        [mkCourse "Mathematics" "teacher1@example.com"
           ["Introduction to Algebra"; "Advanced Calculus"] [] ["s@x.y"];
         mkCourse "Physics" "teacher2@example.com"
           ["Newton's Laws"; "Thermodynamics"] [] []])
     (users seeded ++ [mkUser IsStudent "s" "s@x.y" "pw"])).
Proof.
  refine (proj1 (admin_enrollStudent_only_new_emails
                   seeded 1 [] "s@x.y" [] "pw"
                   (mkCourse "Mathematics" "teacher1@example.com"
                      ["Introduction to Algebra"; "Advanced Calculus"] [] [])
                   _ _ _ _) _ _).
  - unfold Int.size. simpl. lia.
  - unfold Int.size, Int.int_max. simpl. lia.
  - reflexivity.
  - reflexivity.
  - intros u Hu. simpl in Hu.
    rewrite !elem_of_cons in Hu.
    destruct Hu as [->|[->|[->|Hu]]]; try discriminate.
    apply elem_of_nil in Hu. destruct Hu.
  - apply not_elem_of_nil.
Defined.

(** C3, as worded, fails: "s@x.y" is a valid email of a registered
    student and 2 is the index of "Physics", yet [Admin::enrollStudent]
    returns without enrolling the student in "Physics". *)
Lemma admin_enrollStudent_skips_registered_email :
  let w1 := snd (Admin.enrollStudent [1] ["s@x.y"] "pw" seeded) in
  Validator.isValidEmail "s@x.y" = true /\
  map kind
    (List.filter (fun u => String.eqb (getEmail u) "s@x.y") (users w1))
    = [IsStudent] /\
  map Course.getCourseName (courses (instance w1)) = ["Mathematics"; "Physics"] /\
  Admin.enrollStudent [2] ["s@x.y"] "pw" w1 = (Normal tt, w1) /\
  map Course.getStudents (courses (instance w1)) = [["s@x.y"]; []].
Proof. repeat split. Qed.

Lemma admin_addCourse_eq (courseName teacherEmail : string) (addTeacher : ascii)
    (teacherName teacherPassword : string) (w : World) :
  Admin.addCourse courseName teacherEmail addTeacher teacherName
    teacherPassword w =
  let registered :=
    existsb (fun user => String.eqb (getEmail user) teacherEmail) (users w) in
  let agreed := Ascii.eqb addTeacher "y" || Ascii.eqb addTeacher "Y" in
  if negb registered && negb agreed then (Normal tt, w) else
  let w1 :=
    if registered then w
    else mkWorld (instance w)
           (users w ++
            [mkUser IsTeacher teacherName teacherEmail teacherPassword]) in
  if existsb (fun course =>
                String.eqb (Course.getTeacherEmail course) teacherEmail)
             (courses (instance w))
  then (Normal tt, w1)
  else if negb (Validator.isValidString courseName)
  then (Raised (ValidationException "Invalid course name"), w1)
  else if negb (Validator.isValidEmail teacherEmail)
  then (Raised (ValidationException "Invalid teacher email"), w1)
  else (Normal tt,
        mkWorld
          (mkLMSManager
             (courses (instance w) ++ [mkCourse courseName teacherEmail [] [] []]))
          (users w1)).
Proof.
  unfold Admin.addCourse, LMSManager.getCourses, LMSManager.addCourse.
  unfold bind, get, through, users_push_back, modify, ret.
  cbv zeta.
  destruct (existsb _ (users w)); cbn [negb andb].
  - destruct (existsb _ (courses (instance w))); [reflexivity|].
    rewrite new_eq.
    destruct (Validator.isValidString courseName); [|reflexivity].
    destruct (Validator.isValidEmail teacherEmail); reflexivity.
  - destruct (Ascii.eqb addTeacher "y" || Ascii.eqb addTeacher "Y");
      cbn [negb]; [|reflexivity].
    cbn [instance users].
    destruct (existsb _ (courses (instance w))); [reflexivity|].
    rewrite new_eq.
    destruct (Validator.isValidString courseName); [|reflexivity].
    destruct (Validator.isValidEmail teacherEmail); reflexivity.
Qed.

Lemma existsb_teacher (t : string) (cs : list Course) :
  existsb (fun course => String.eqb (Course.getTeacherEmail course) t) cs = true
  <-> t ∈ map Course.getTeacherEmail cs.
Proof.
  rewrite existsb_exists, list_elem_of_In, in_map_iff. split.
  - intros (c & Hin & Heq). apply String.eqb_eq in Heq. eauto.
  - intros (c & Heq & Hin). exists c. split; [assumption|].
    apply String.eqb_eq, Heq.
Qed.

(** [Admin::addCourse] adds nothing for a teacher who has a course. *)
Lemma admin_addCourse_refuses_assigned_teacher
    (courseName teacherEmail : string) (addTeacher : ascii)
    (teacherName teacherPassword : string) (w : World) :
  teacherEmail ∈ map Course.getTeacherEmail (courses (instance w)) ->
  courses (instance (snd (Admin.addCourse courseName teacherEmail addTeacher
                            teacherName teacherPassword w)))
  = courses (instance w).
Proof.
  intros Hin. apply existsb_teacher in Hin.
  rewrite admin_addCourse_eq. cbv zeta. rewrite Hin.
  destruct (negb _ && negb _); [reflexivity|].
  destruct (existsb _ (users w)); reflexivity.
Qed.

(** [Admin::addCourse] keeps the teachers of the courses distinct. *)
Lemma admin_addCourse_keeps_teachers_distinct
    (courseName teacherEmail : string) (addTeacher : ascii)
    (teacherName teacherPassword : string) (w : World) :
  NoDup (map Course.getTeacherEmail (courses (instance w))) ->
  NoDup (map Course.getTeacherEmail
           (courses (instance (snd (Admin.addCourse courseName teacherEmail
                       addTeacher teacherName teacherPassword w))))).
Proof.
  intros Hnd. rewrite admin_addCourse_eq. cbv zeta.
  destruct (negb _ && negb _); [assumption|].
  destruct (existsb _ (courses (instance w))) eqn:Hex.
  { destruct (existsb _ (users w)); assumption. }
  assert (Hfresh : teacherEmail ∉ map Course.getTeacherEmail (courses (instance w))).
  { intros Hin. apply existsb_teacher in Hin. congruence. }
  destruct (negb (Validator.isValidString courseName)).
  { destruct (existsb _ (users w)); assumption. }
  destruct (negb (Validator.isValidEmail teacherEmail)).
  { destruct (existsb _ (users w)); assumption. }
  cbn [snd instance courses]. rewrite map_app. simpl.
  apply NoDup_app. split; [assumption|]. split; [|apply NoDup_singleton].
  intros x Hx Hxt. apply list_elem_of_singleton in Hxt. subst. contradiction.
Qed.

(** [Admin::addCourse] adds a course only for an email some user has once
    the call is over. *)
Lemma admin_addCourse_needs_registered_email
    (courseName teacherEmail : string) (addTeacher : ascii)
    (teacherName teacherPassword : string) (w : World) :
  let w' := snd (Admin.addCourse courseName teacherEmail addTeacher
                   teacherName teacherPassword w) in
  courses (instance w') <> courses (instance w) ->
  exists u, u ∈ users w' /\ getEmail u = teacherEmail.
Proof.
  cbv zeta. rewrite admin_addCourse_eq. cbv zeta.
  destruct (existsb _ (users w)) eqn:Hreg; cbn [negb andb].
  - apply existsb_email in Hreg.
    destruct (existsb _ (courses (instance w))); [contradiction|].
    destruct (negb (Validator.isValidString courseName)); [contradiction|].
    destruct (negb (Validator.isValidEmail teacherEmail)); [contradiction|].
    intros _. exact Hreg.
  - destruct (Ascii.eqb addTeacher "y" || Ascii.eqb addTeacher "Y");
      cbn [negb]; [|contradiction].
    destruct (existsb _ (courses (instance w))); [contradiction|].
    destruct (negb (Validator.isValidString courseName)); [contradiction|].
    destruct (negb (Validator.isValidEmail teacherEmail)); [contradiction|].
    intros _. cbn [snd users].
    exists (mkUser IsTeacher teacherName teacherEmail teacherPassword).
    split; [|reflexivity]. apply elem_of_app. right. left.
Qed.

(** C2, at the failing input: on the seeded state, [Admin::addCourse]
    given the email of the admin user, which no teacher has, adds the
    course "Chemistry" with that email as its teacher. *)
Theorem admin_addCourse_accepts_admin_email :
  let w' := snd (Admin.addCourse "Chemistry" "admin1@example.com" "n" "" ""
                   seeded) in
  map (fun c => (Course.getCourseName c, Course.getTeacherEmail c))
      (courses (instance w'))
  = [("Mathematics", "teacher1@example.com");
     ("Physics", "teacher2@example.com");
     ("Chemistry", "admin1@example.com")] /\
  users w' = users seeded /\
  map kind
    (List.filter (fun u => String.eqb (getEmail u) "admin1@example.com")
       (users w'))
  = [IsAdmin].
Proof. repeat split. Qed.

(** * Further properties *)

(** ** Validator and the constructor *)


Lemma isValidString_length (s : string) :
  Validator.isValidString s = true <->
  (1 <= String.length s <= 100)%nat.
Proof.
  unfold Validator.isValidString, Int.slength.
  rewrite andb_true_iff, negb_true_iff, Z.eqb_neq, Z.leb_le. lia.
Qed.

(** The constructor returns a course without contents, grades and
    students when the name has 1 to 100 characters and the teacher email
    is valid; it throws "Invalid course name" for any other name, whatever
    the email, and "Invalid teacher email" for a good name with an invalid
    email, as for "not-an-email". *)
Theorem constructor_validates_name_then_email (name email : string) (w : World) :
  ((1 <= String.length name <= 100)%nat ->
   Validator.isValidEmail email = true ->
   Course.new name email w = (Normal (mkCourse name email [] [] []), w)) /\
  (~ (1 <= String.length name <= 100)%nat ->
   Course.new name email w =
   (Raised (ValidationException "Invalid course name"), w)) /\
  ((1 <= String.length name <= 100)%nat ->
   Validator.isValidEmail email = false ->
   Course.new name email w =
   (Raised (ValidationException "Invalid teacher email"), w)) /\
  Course.new "Chemistry" "not-an-email" w =
  (Raised (ValidationException "Invalid teacher email"), w).
Proof.
  rewrite !new_eq. pose proof (isValidString_length name) as Hname.
  split; [|split; [|split]].
  - intros Hlen Hemail. rewrite (proj2 Hname Hlen), Hemail. reflexivity.
  - intros Hlen. destruct (Validator.isValidString name); [|reflexivity].
    destruct Hlen. apply Hname. reflexivity.
  - intros Hlen Hemail. rewrite (proj2 Hname Hlen), Hemail. reflexivity.
  - reflexivity.
Qed.

(** ** Course: removing content, and undoing an addition *)

(** [removeContent] at an offset into the contents takes that element
    out: the contents before it stay where they were, those after it
    move down by one, and nothing else of the course changes. *)
Theorem removeContent_shifts_down (c : Course) (i : nat) :
  Int.size (contents c) <= Int.int_max ->
  (i < length (contents c))%nat ->
  exists c',
    Course.removeContent (Z.of_nat i) c = (Normal tt, c') /\
    c' = Course.set_contents (contents c') c /\
    S (length (contents c')) = length (contents c) /\
    (forall j, (j < i)%nat -> contents c' !! j = contents c !! j) /\
    (forall j, (i <= j)%nat -> contents c' !! j = contents c !! S j).
Proof.
  intros Hsmall Hi. rewrite removeContent_eq.
  rewrite (isValidIndex_inside _ _ Hsmall Hi), Nat2Z.id.
  eexists. split; [reflexivity|]. simpl. split; [reflexivity|].
  split; [|split].
  - rewrite length_delete by (apply lookup_lt_is_Some; assumption). lia.
  - intros j Hj. apply list_lookup_delete_lt, Hj.
  - intros j Hj. apply list_lookup_delete_ge, Hj.
Qed.

Lemma removeContent_shifts_down_witness :
  exists c',
    Course.removeContent 0
      (mkCourse "Physics" "teacher2@example.com"
         ["Newton's Laws"; "Thermodynamics"] [] []) = (Normal tt, c') /\
    c' = Course.set_contents (contents c')
           (mkCourse "Physics" "teacher2@example.com"
              ["Newton's Laws"; "Thermodynamics"] [] []) /\
    S (length (contents c')) = 2%nat /\
    (forall j, (j < 0)%nat ->
       contents c' !! j = ["Newton's Laws"; "Thermodynamics"] !! j) /\
    (forall j, (0 <= j)%nat ->
       contents c' !! j = ["Newton's Laws"; "Thermodynamics"] !! S j).
Proof.
  apply (removeContent_shifts_down
           (mkCourse "Physics" "teacher2@example.com"
              ["Newton's Laws"; "Thermodynamics"] [] []) 0).
  - unfold Int.size, Int.int_max. simpl. lia.
  - simpl. lia.
Defined.

(** Adding a valid content and then removing the content at the old
    size gives the course back. *)
Theorem addContent_then_removeContent (c : Course) (content : string) :
  Validator.isValidString content = true ->
  Int.size (contents c) < Int.int_max ->
  (Course.addContent content ;; Course.removeContent (Int.size (contents c)))%cpp c
  = (Normal tt, c).
Proof.
  intros Hvalid Hsmall. unfold bind.
  rewrite addContent_eq, Hvalid, removeContent_eq. simpl.
  change (Int.size (contents c)) with (Z.of_nat (length (contents c))) in *.
  rewrite isValidIndex_inside.
  - rewrite Nat2Z.id, delete_middle, app_nil_r. destruct c; reflexivity.
  - unfold Int.size. rewrite length_app. simpl. lia.
  - rewrite length_app. simpl. lia.
Qed.

Lemma addContent_then_removeContent_witness :
  (Course.addContent "Optics" ;; Course.removeContent 2)%cpp
    (mkCourse "Physics" "teacher2@example.com"
       ["Newton's Laws"; "Thermodynamics"] [] [])
  = (Normal tt,
     mkCourse "Physics" "teacher2@example.com"
       ["Newton's Laws"; "Thermodynamics"] [] []).
Proof.
  apply (addContent_then_removeContent
           (mkCourse "Physics" "teacher2@example.com"
              ["Newton's Laws"; "Thermodynamics"] [] []) "Optics").
  - reflexivity.
  - unfold Int.size, Int.int_max. simpl. lia.
Defined.

(** Enrolling a valid email that is not enrolled and then removing it
    gives the course back. *)
Theorem enrollStudent_then_removeStudent (c : Course) (e : string) :
  Validator.isValidEmail e = true ->
  (e ∉ enrolledStudents c) ->
  (Course.enrollStudent e ;; Course.removeStudent e)%cpp c = (Normal tt, c).
Proof.
  intros Hvalid Hno. unfold bind.
  rewrite enrollStudent_eq, Hvalid.
  rewrite (proj2 (existsb_eqb_not_elem_of e (enrolledStudents c)) Hno).
  rewrite (removeStudent_present e (enrolledStudents c) []);
    [| reflexivity | assumption].
  rewrite app_nil_r. destruct c; reflexivity.
Qed.

Lemma enrollStudent_then_removeStudent_witness :
  (Course.enrollStudent "a@b.co" ;; Course.removeStudent "a@b.co")%cpp
    (mkCourse "Physics" "teacher2@example.com" [] [] ["c@d.eu"])
  = (Normal tt, mkCourse "Physics" "teacher2@example.com" [] [] ["c@d.eu"]).
Proof.
  apply (enrollStudent_then_removeStudent
           (mkCourse "Physics" "teacher2@example.com" [] [] ["c@d.eu"])
           "a@b.co").
  - reflexivity.
  - simpl. rewrite not_elem_of_cons.
    split; [discriminate | apply not_elem_of_nil].
Defined.

(** ** LMSManager: a course added is found at the end *)

(** [addCourse] puts the course at the old size and leaves the earlier
    courses where they were: [getCourse] at the old size returns a
    reference to it, and [removeCourse] at the old size gives the
    registry back. *)
Theorem addCourse_then_getCourse (m : LMSManager) (course : Course) :
  Int.size (courses m) < Int.int_max ->
  exists m',
    LMSManager.addCourse course m = (Normal tt, m') /\
    (exists r, LMSManager.getCourse (Int.size (courses m)) m' = (Normal r, m') /\
               peek r m' = Some course) /\
    (forall i, (i < length (courses m))%nat ->
       courses m' !! i = courses m !! i) /\
    LMSManager.removeCourse (Int.size (courses m)) m' = (Normal tt, m).
Proof.
  intros Hsmall. eexists. split; [reflexivity|]. simpl.
  assert (Hvalid : Validator.isValidIndex (Int.size (courses m))
            (Int.to_int (Int.size (courses m ++ [course]))) = true).
  { change (Int.size (courses m)) with (Z.of_nat (length (courses m))) in *.
    apply isValidIndex_inside.
    - unfold Int.size. rewrite length_app. simpl. lia.
    - rewrite length_app. simpl. lia. }
  split; [|split].
  - eexists. rewrite getCourse_eq. simpl. rewrite Hvalid.
    split; [reflexivity|]. simpl. unfold Int.size. rewrite Nat2Z.id.
    apply list_lookup_middle. reflexivity.
  - intros i Hi. apply lookup_app_l, Hi.
  - rewrite removeCourse_eq. simpl. rewrite Hvalid.
    unfold Int.size. rewrite Nat2Z.id, delete_middle, app_nil_r.
    destruct m; reflexivity.
Qed.

Lemma addCourse_then_getCourse_witness :
  exists m',
    LMSManager.addCourse (mkCourse "Chemistry" "t@u.vw" [] [] [])
      (instance seeded) = (Normal tt, m') /\
    (exists r, LMSManager.getCourse 2 m' = (Normal r, m') /\
               peek r m' = Some (mkCourse "Chemistry" "t@u.vw" [] [] [])) /\
    (forall i, (i < 2)%nat -> courses m' !! i = courses (instance seeded) !! i) /\
    LMSManager.removeCourse 2 m' = (Normal tt, instance seeded).
Proof.
  apply (addCourse_then_getCourse (instance seeded)
           (mkCourse "Chemistry" "t@u.vw" [] [] [])).
  unfold Int.size, Int.int_max. simpl. lia.
Defined.

(** ** Admin: calls on a course of the registry *)

Lemma set_course_same (w : World) (i : nat) (c : Course) :
  courses (instance w) !! i = Some c -> set_course i c w = w.
Proof.
  intros Hi. unfold set_course. rewrite list_insert_id by assumption.
  destruct w as [[cs] us]. reflexivity.
Qed.

Lemma through_slot {A} (w : World) (i : nat) (c : Course) (m : M Course A) :
  courses (instance w) !! i = Some c ->
  through (within getInstance (LMSManager.slot i)) m w =
  (fst (m c), set_course i (snd (m c)) w).
Proof.
  intros Hi. unfold through, within, getInstance, LMSManager.slot.
  cbn [peek poke]. rewrite Hi. destruct (m c). reflexivity.
Qed.

Lemma through_slot_outside {A} (w : World) (i : nat) (m : M Course A) :
  courses (instance w) !! i = None ->
  through (within getInstance (LMSManager.slot i)) m w = (Undefined, w).
Proof.
  intros Hi. unfold through, within, getInstance, LMSManager.slot.
  cbn [peek poke]. rewrite Hi. reflexivity.
Qed.

Lemma through_slot_get (w : World) (i : nat) (c : Course) :
  courses (instance w) !! i = Some c ->
  through (within getInstance (LMSManager.slot i)) get w = (Normal c, w).
Proof.
  intros Hi. rewrite (through_slot w i c get Hi). unfold get. simpl.
  rewrite set_course_same by assumption. reflexivity.
Qed.

Lemma through_getCourse (w : World) (index : Z) :
  through getInstance (LMSManager.getCourse index) w =
  if Validator.isValidIndex index
       (Int.to_int (Int.size (courses (instance w))))
  then (Normal (LMSManager.slot (Z.to_nat index)), w)
  else (Raised InvalidCourseIndexException, w).
Proof.
  destruct (Validator.isValidIndex _ _) eqn:Hv;
    apply through_getInstance_same; rewrite getCourse_eq, Hv; reflexivity.
Qed.

Lemma through_getCourse_ok (w : World) (index : Z) :
  Validator.isValidIndex index
    (Int.to_int (Int.size (courses (instance w)))) = true ->
  through getInstance (LMSManager.getCourse index) w =
  (Normal (LMSManager.slot (Z.to_nat index)), w).
Proof.
  intros Hv. apply through_getInstance_same. rewrite getCourse_eq, Hv.
  reflexivity.
Qed.

Lemma through_getCourse_throws (w : World) (index : Z) :
  Validator.isValidIndex index
    (Int.to_int (Int.size (courses (instance w)))) = false ->
  through getInstance (LMSManager.getCourse index) w =
  (Raised InvalidCourseIndexException, w).
Proof.
  intros Hv. apply through_getInstance_same. rewrite getCourse_eq, Hv.
  reflexivity.
Qed.

(** A valid index is an offset into the vector. *)
Lemma isValidIndex_lookup {A} (index : Z) (v : list A) :
  Validator.isValidIndex index (Int.to_int (Int.size v)) = true ->
  exists x, v !! Z.to_nat index = Some x.
Proof.
  unfold Validator.isValidIndex. intros Hv.
  apply andb_true_iff in Hv as [H0 Hlt].
  apply Z.leb_le in H0. apply Z.ltb_lt in Hlt.
  pose proof (to_int_size_le v) as Hle. unfold Int.size in *.
  apply lookup_lt_is_Some. lia.
Qed.

Lemma isValidIndex_one_based {A} (userIndex : Z) (v : list A) :
  Int.size v <= Int.int_max ->
  Validator.isValidIndex (userIndex - 1) (Int.to_int (Int.size v))
  = (1 <=? userIndex) && (userIndex <=? Int.size v).
Proof.
  intros Hsmall. rewrite to_int_small.
  - unfold Validator.isValidIndex.
    destruct (Z.leb_spec 0 (userIndex - 1)), (Z.leb_spec 1 userIndex),
             (Z.ltb_spec (userIndex - 1) (Int.size v)),
             (Z.leb_spec userIndex (Int.size v)); try lia; reflexivity.
  - unfold Int.in_int, Int.int_min, Int.size in *. lia.
Qed.

Lemma int_sub_within {S} (a b : Z) (s : S) :
  Int.in_int (a - b) -> int_sub a b s = (Normal (a - b), s).
Proof.
  unfold Int.in_int, int_sub. intros [Hlo Hhi].
  apply Z.leb_le in Hlo. apply Z.leb_le in Hhi. rewrite Hlo, Hhi. reflexivity.
Qed.

Lemma int_sub_overflow {S} (a b : Z) (s : S) :
  ~ Int.in_int (a - b) -> int_sub a b s = (Undefined, s).
Proof.
  unfold Int.in_int, int_sub. intros Hout.
  destruct (Z.leb_spec Int.int_min (a - b)), (Z.leb_spec (a - b) Int.int_max);
    try reflexivity. lia.
Qed.

Lemma empty_false_lookup {A} (v : list A) (i : nat) (x : A) :
  v !! i = Some x -> empty v = false.
Proof. destruct v; [discriminate | reflexivity]. Qed.

(** What [Admin::removeStudent] does once the index is that of a
    course [c]. *)
Lemma admin_removeStudent_at (w : World) (userIndex : Z) (e : string) (c : Course) :
  Int.in_int (userIndex - 1) ->
  Validator.isValidIndex (userIndex - 1)
    (Int.to_int (Int.size (courses (instance w)))) = true ->
  courses (instance w) !! Z.to_nat (userIndex - 1) = Some c ->
  Admin.removeStudent userIndex e w =
  if empty (enrolledStudents c) then (Normal tt, w)
  else (Normal tt,
        set_course (Z.to_nat (userIndex - 1))
          (snd (Course.removeStudent e c)) w).
Proof.
  intros Hint Hvalid Hc.
  unfold Admin.removeStudent, LMSManager.getCourses.
  unfold bind at 1. unfold get at 1. cbv beta iota zeta.
  rewrite (empty_false_lookup _ _ _ Hc).
  unfold try_catch at 1. unfold bind at 1.
  rewrite (int_sub_within _ _ _ Hint).
  unfold bind at 1. rewrite (through_getCourse_ok _ _ Hvalid).
  unfold bind at 1. rewrite (through_slot_get _ _ _ Hc).
  unfold Course.getStudents.
  destruct (empty (enrolledStudents c)); [reflexivity|].
  unfold try_catch. rewrite (through_slot _ _ _ _ Hc).
  destruct (removeStudent_cases e c) as [[_ ->]|(l1 & l2 & _ & _ & ->)];
    reflexivity.
Qed.

(** What [Admin::removeStudent] does when the index is that of no
    course. *)
Lemma admin_removeStudent_outside (w : World) (userIndex : Z) (e : string) :
  Int.in_int (userIndex - 1) ->
  Validator.isValidIndex (userIndex - 1)
    (Int.to_int (Int.size (courses (instance w)))) = false ->
  Admin.removeStudent userIndex e w = (Normal tt, w).
Proof.
  intros Hint Hvalid.
  unfold Admin.removeStudent, LMSManager.getCourses.
  unfold bind at 1. unfold get at 1. cbv beta iota zeta.
  destruct (empty (courses (instance w))); [reflexivity|].
  unfold try_catch at 1. unfold bind at 1.
  rewrite (int_sub_within _ _ _ Hint).
  unfold bind at 1. rewrite (through_getCourse_throws _ _ Hvalid).
  reflexivity.
Qed.

Lemma admin_removeStudent_overflow (w : World) (userIndex : Z) (e : string) :
  ~ Int.in_int (userIndex - 1) ->
  snd (Admin.removeStudent userIndex e w) = w.
Proof.
  intros Hint.
  unfold Admin.removeStudent, LMSManager.getCourses.
  unfold bind at 1. unfold get at 1. cbv beta iota zeta.
  destruct (empty (courses (instance w))); [reflexivity|].
  unfold try_catch at 1. unfold bind at 1.
  rewrite (int_sub_overflow _ _ _ Hint). reflexivity.
Qed.

(** [Admin::removeStudent], given the 1-based index of a course, takes
    the first occurrence of the email out of that course of the registry
    and leaves the other courses and the users alone; for an email that
    is not enrolled there, and for an index that is that of no course, it
    returns with the globals unchanged: no exception leaves it. *)
Theorem admin_removeStudent_reaches_registry
    (w : World) (userIndex : Z) (e : string) :
  Int.int_min < userIndex <= Int.int_max ->
  Int.size (courses (instance w)) <= Int.int_max ->
  (~ (1 <= userIndex <= Int.size (courses (instance w))) ->
   Admin.removeStudent userIndex e w = (Normal tt, w)) /\
  (forall c,
     courses (instance w) !! Z.to_nat (userIndex - 1) = Some c ->
     1 <= userIndex ->
     ((e ∉ enrolledStudents c) ->
      Admin.removeStudent userIndex e w = (Normal tt, w)) /\
     (forall l1 l2,
        enrolledStudents c = l1 ++ e :: l2 -> (e ∉ l1) ->
        Admin.removeStudent userIndex e w =
        (Normal tt,
         set_course (Z.to_nat (userIndex - 1))
           (Course.set_enrolledStudents (l1 ++ l2) c) w))).
Proof.
  intros Hint Hsmall.
  assert (Hint' : Int.in_int (userIndex - 1)).
  { unfold Int.in_int, Int.int_min, Int.int_max in *. lia. }
  pose proof (isValidIndex_one_based userIndex _ Hsmall) as Hone.
  split.
  - intros Hout. apply admin_removeStudent_outside; [assumption|].
    rewrite Hone.
    destruct (Z.leb_spec 1 userIndex); [|reflexivity].
    destruct (Z.leb_spec userIndex (Int.size (courses (instance w))));
      [lia | reflexivity].
  - intros c Hc H1.
    assert (Hvalid : Validator.isValidIndex (userIndex - 1)
              (Int.to_int (Int.size (courses (instance w)))) = true).
    { rewrite Hone. apply lookup_lt_Some in Hc. unfold Int.size.
      apply andb_true_iff. split; [apply Z.leb_le | apply Z.leb_le]; lia. }
    rewrite (admin_removeStudent_at w userIndex e c Hint' Hvalid Hc).
    split.
    + intros Hno. destruct (empty (enrolledStudents c)); [reflexivity|].
      rewrite (removeStudent_absent e c Hno). simpl.
      rewrite set_course_same by assumption. reflexivity.
    + intros l1 l2 Hl Hl1.
      rewrite (removeStudent_present e l1 l2 c Hl Hl1).
      rewrite Hl. destruct l1; reflexivity.
Qed.

Lemma admin_removeStudent_reaches_registry_witness :
  let w1 := snd (Admin.enrollStudent [1] ["s@x.y"] "pw" seeded) in
  Admin.removeStudent 1 "s@x.y" w1 =
  (Normal tt,
   set_course 0
     (mkCourse "Mathematics" "teacher1@example.com"
        ["Introduction to Algebra"; "Advanced Calculus"] [] []) w1).
Proof.
  intros w1.
  refine (proj2 (proj2 (admin_removeStudent_reaches_registry w1 1 "s@x.y" _ _)
                   (mkCourse "Mathematics" "teacher1@example.com"
                      ["Introduction to Algebra"; "Advanced Calculus"] []
                      ["s@x.y"]) _ _) [] [] _ _).
  - unfold Int.int_min, Int.int_max. lia.
  - unfold Int.size, Int.int_max. simpl. lia.
  - reflexivity.
  - lia.
  - reflexivity.
  - apply not_elem_of_nil.
Defined.

(** ** Admin: deleting and editing a course *)

Lemma wrap_size_t_small (z : Z) : 0 <= z <= Int.int_max -> Int.wrap_size_t z = z.
Proof.
  unfold Int.wrap_size_t, Int.int_max. intros H. apply Z.mod_small. lia.
Qed.

(** [Admin::deleteCourse] once its own range test lets the index pass. *)
Lemma admin_deleteCourse_at (w : World) (index : Z) (c : Course) :
  (index <? 1) || (Int.size (courses (instance w)) <? Int.wrap_size_t index)
    = false ->
  courses (instance w) !! Z.to_nat (index - 1) = Some c ->
  Admin.deleteCourse index w =
  if Validator.isValidIndex (index - 1)
       (Int.to_int (Int.size (courses (instance w))))
  then (Normal tt, without_course (Z.to_nat (index - 1)) w)
  else (Normal tt, w).
Proof.
  intros Hrange Hc.
  unfold Admin.deleteCourse, LMSManager.getCourses.
  unfold bind at 1. unfold get at 1. cbv beta iota zeta.
  rewrite (empty_false_lookup _ _ _ Hc).
  unfold try_catch. unfold bind at 1. rewrite Hrange.
  unfold when, ret at 1. unfold bind at 1.
  rewrite (through_slot_get _ _ _ Hc).
  unfold through. cbn [peek poke getInstance].
  rewrite removeCourse_eq.
  destruct (Validator.isValidIndex _ _); [reflexivity|].
  destruct w as [[cs] us]. reflexivity.
Qed.

(** [Admin::deleteCourse] when its own range test stops the index. *)
Lemma admin_deleteCourse_refused (w : World) (index : Z) :
  (index <? 1) || (Int.size (courses (instance w)) <? Int.wrap_size_t index)
    = true ->
  Admin.deleteCourse index w = (Normal tt, w).
Proof.
  intros Hrange.
  unfold Admin.deleteCourse, LMSManager.getCourses.
  unfold bind at 1. unfold get at 1. cbv beta iota zeta.
  destruct (empty (courses (instance w))); [reflexivity|].
  unfold try_catch. unfold bind at 1. rewrite Hrange. reflexivity.
Qed.

(** [Admin::deleteCourse], given the 1-based index of a course, takes
    that course out of the registry, the later courses moving down by
    one; given any other number it returns with the globals unchanged.
    No exception leaves it. *)
Theorem admin_deleteCourse_one_based (w : World) (index : Z) :
  Int.in_int index ->
  Int.size (courses (instance w)) <= Int.int_max ->
  (1 <= index <= Int.size (courses (instance w)) ->
   Admin.deleteCourse index w =
   (Normal tt, without_course (Z.to_nat (index - 1)) w)) /\
  (~ (1 <= index <= Int.size (courses (instance w))) ->
   Admin.deleteCourse index w = (Normal tt, w)).
Proof.
  intros Hint Hsmall. split.
  - intros Hin.
    assert (Hlt : (Z.to_nat (index - 1) < length (courses (instance w)))%nat).
    { unfold Int.size in Hin. lia. }
    destruct (lookup_lt_is_Some_2 _ _ Hlt) as [c Hc].
    rewrite (admin_deleteCourse_at w index c); [|
      rewrite wrap_size_t_small by lia;
      apply orb_false_iff; split; [apply Z.ltb_ge | apply Z.ltb_ge]; lia
      | assumption].
    rewrite isValidIndex_one_based by assumption.
    destruct (Z.leb_spec 1 index); [|lia].
    destruct (Z.leb_spec index (Int.size (courses (instance w)))); [|lia].
    reflexivity.
  - intros Hout. apply admin_deleteCourse_refused.
    destruct (Z.ltb_spec index 1) as [|H1]; [reflexivity|]. simpl.
    unfold Int.in_int in Hint.
    rewrite wrap_size_t_small by lia. apply Z.ltb_lt. lia.
Qed.

Lemma admin_deleteCourse_one_based_witness :
  Admin.deleteCourse 1 seeded = (Normal tt, without_course 0 seeded).
Proof.
  refine (proj1 (admin_deleteCourse_one_based seeded 1 _ _) _).
  - unfold Int.in_int, Int.int_min, Int.int_max. lia.
  - unfold Int.size, Int.int_max. simpl. lia.
  - unfold Int.size. simpl. lia.
Defined.

(** [Admin::editCourse] once the index is that of a course [c]. *)
Lemma admin_editCourse_at (w : World) (userIndex : Z) (choice : ascii)
    (contentChoice : Z) (content : string) (userContentIndex : Z) (c : Course) :
  Int.in_int (userIndex - 1) ->
  Validator.isValidIndex (userIndex - 1)
    (Int.to_int (Int.size (courses (instance w)))) = true ->
  courses (instance w) !! Z.to_nat (userIndex - 1) = Some c ->
  Admin.editCourse userIndex choice contentChoice content userContentIndex w =
  if Ascii.eqb (tolower choice) "y" then
    if contentChoice =? 1 then
      if Validator.isValidString content
      then (Normal tt,
            set_course (Z.to_nat (userIndex - 1))
              (Course.set_contents (contents c ++ [content]) c) w)
      else (Raised (ValidationException "Invalid content"), w)
    else if contentChoice =? 2 then
      if empty (contents c) then (Normal tt, w)
      else if (Int.int_min <=? userContentIndex - 1) &&
              (userContentIndex - 1 <=? Int.int_max) then
        if Validator.isValidIndex (userContentIndex - 1)
             (Int.to_int (Int.size (contents c)))
        then (Normal tt,
              set_course (Z.to_nat (userIndex - 1))
                (Course.set_contents
                   (delete (Z.to_nat (userContentIndex - 1)) (contents c)) c) w)
        else (Normal tt, w)
      else (Undefined, w)
    else (Normal tt, w)
  else (Normal tt, w).
Proof.
  intros Hint Hvalid Hc.
  unfold Admin.editCourse, LMSManager.getCourses.
  unfold bind at 1. unfold get at 1. cbv beta iota zeta.
  rewrite (empty_false_lookup _ _ _ Hc).
  unfold try_catch at 1. unfold bind at 1.
  rewrite (int_sub_within _ _ _ Hint).
  unfold bind at 1. rewrite (through_getCourse_ok _ _ Hvalid).
  destruct (Ascii.eqb (tolower choice) "y"); [|reflexivity].
  destruct (contentChoice =? 1).
  { rewrite (through_slot _ _ _ _ Hc), addContent_eq.
    destruct (Validator.isValidString content); simpl; [reflexivity|].
    rewrite set_course_same by assumption. reflexivity. }
  destruct (contentChoice =? 2); [|reflexivity].
  unfold bind at 1. rewrite (through_slot_get _ _ _ Hc).
  unfold Course.getContents.
  destruct (empty (contents c)); [reflexivity|].
  unfold try_catch, bind. unfold int_sub.
  destruct ((Int.int_min <=? userContentIndex - 1) &&
            (userContentIndex - 1 <=? Int.int_max)); [|reflexivity].
  rewrite (through_slot _ _ _ _ Hc), removeContent_eq.
  destruct (Validator.isValidIndex (userContentIndex - 1) _); simpl;
    [reflexivity|].
  rewrite set_course_same by assumption. reflexivity.
Qed.

Lemma admin_editCourse_outside (w : World) (userIndex : Z) (choice : ascii)
    (contentChoice : Z) (content : string) (userContentIndex : Z) :
  Int.in_int (userIndex - 1) ->
  Validator.isValidIndex (userIndex - 1)
    (Int.to_int (Int.size (courses (instance w)))) = false ->
  Admin.editCourse userIndex choice contentChoice content userContentIndex w
  = (Normal tt, w).
Proof.
  intros Hint Hvalid.
  unfold Admin.editCourse, LMSManager.getCourses.
  unfold bind at 1. unfold get at 1. cbv beta iota zeta.
  destruct (empty (courses (instance w))); [reflexivity|].
  unfold try_catch at 1. unfold bind at 1.
  rewrite (int_sub_within _ _ _ Hint).
  unfold bind at 1. rewrite (through_getCourse_throws _ _ Hvalid).
  reflexivity.
Qed.

Lemma admin_editCourse_overflow (w : World) (userIndex : Z) (choice : ascii)
    (contentChoice : Z) (content : string) (userContentIndex : Z) :
  ~ Int.in_int (userIndex - 1) ->
  snd (Admin.editCourse userIndex choice contentChoice content
         userContentIndex w) = w.
Proof.
  intros Hint.
  unfold Admin.editCourse, LMSManager.getCourses.
  unfold bind at 1. unfold get at 1. cbv beta iota zeta.
  destruct (empty (courses (instance w))); [reflexivity|].
  unfold try_catch at 1. unfold bind at 1.
  rewrite (int_sub_overflow _ _ _ Hint). reflexivity.
Qed.

(** [Admin::editCourse] on the course at a 1-based index, the admin
    having answered 'y' or 'Y': choice 1 appends a valid content to that
    course of the registry, and for an invalid content (empty, or longer
    than 100 characters) the [ValidationException] "Invalid content"
    leaves [editCourse], which catches [InvalidCourseIndexException]
    only; choice 2 removes the content at a 1-based content index, and
    for an index of no content returns with the globals unchanged, the
    [InvalidCourseIndexException] being caught by the outer handler. *)
Theorem admin_editCourse_contents
    (w : World) (userIndex : Z) (choice : ascii) (content : string)
    (userContentIndex : Z) (c : Course) :
  1 <= userIndex <= Int.size (courses (instance w)) ->
  Int.size (courses (instance w)) <= Int.int_max ->
  courses (instance w) !! Z.to_nat (userIndex - 1) = Some c ->
  tolower choice = "y"%char ->
  (Validator.isValidString content = true ->
   Admin.editCourse userIndex choice 1 content userContentIndex w =
   (Normal tt,
    set_course (Z.to_nat (userIndex - 1))
      (Course.set_contents (contents c ++ [content]) c) w)) /\
  (Validator.isValidString content = false ->
   Admin.editCourse userIndex choice 1 content userContentIndex w =
   (Raised (ValidationException "Invalid content"), w)) /\
  (Int.size (contents c) <= Int.int_max ->
   1 <= userContentIndex <= Int.size (contents c) ->
   Admin.editCourse userIndex choice 2 content userContentIndex w =
   (Normal tt,
    set_course (Z.to_nat (userIndex - 1))
      (Course.set_contents
         (delete (Z.to_nat (userContentIndex - 1)) (contents c)) c) w)) /\
  (Int.size (contents c) <= Int.int_max ->
   Int.int_min < userContentIndex <= Int.int_max ->
   ~ (1 <= userContentIndex <= Int.size (contents c)) ->
   Admin.editCourse userIndex choice 2 content userContentIndex w =
   (Normal tt, w)).
Proof.
  intros Hidx Hsmall Hc Hyes.
  assert (Hint : Int.in_int (userIndex - 1)).
  { unfold Int.in_int, Int.int_min, Int.int_max in *. lia. }
  assert (Hvalid : Validator.isValidIndex (userIndex - 1)
            (Int.to_int (Int.size (courses (instance w)))) = true).
  { rewrite isValidIndex_one_based by assumption.
    apply andb_true_iff. split; apply Z.leb_le; lia. }
  pose proof (fun cc => admin_editCourse_at w userIndex choice cc content
                          userContentIndex c Hint Hvalid Hc) as Heq.
  rewrite Hyes in Heq. change (Ascii.eqb "y" "y") with true in Heq.
  split; [|split; [|split]].
  - intros Hv. rewrite Heq, Hv. reflexivity.
  - intros Hv. rewrite Heq, Hv. reflexivity.
  - intros Hcsmall Hin. rewrite Heq. simpl.
    assert (Hne : empty (contents c) = false).
    { unfold Int.size in Hin. destruct (contents c); [simpl in Hin; lia|].
      reflexivity. }
    rewrite Hne.
    replace ((Int.int_min <=? userContentIndex - 1) &&
             (userContentIndex - 1 <=? Int.int_max)) with true.
    2:{ symmetry. apply andb_true_iff.
        unfold Int.int_min, Int.int_max in *. split; apply Z.leb_le; lia. }
    rewrite isValidIndex_one_based by assumption.
    replace ((1 <=? userContentIndex) &&
             (userContentIndex <=? Int.size (contents c))) with true.
    2:{ symmetry. apply andb_true_iff. split; apply Z.leb_le; lia. }
    reflexivity.
  - intros Hcsmall Hcint Hout. rewrite Heq. simpl.
    destruct (empty (contents c)); [reflexivity|].
    replace ((Int.int_min <=? userContentIndex - 1) &&
             (userContentIndex - 1 <=? Int.int_max)) with true.
    2:{ symmetry. apply andb_true_iff.
        unfold Int.int_min, Int.int_max in *. split; apply Z.leb_le; lia. }
    rewrite isValidIndex_one_based by assumption.
    destruct (Z.leb_spec 1 userContentIndex); [|reflexivity].
    destruct (Z.leb_spec userContentIndex (Int.size (contents c)));
      [lia | reflexivity].
Qed.

Lemma admin_editCourse_contents_witness :
  Admin.editCourse 2 "Y" 1 "" 0 seeded =
  (Raised (ValidationException "Invalid content"), seeded).
Proof.
  refine (proj1 (proj2 (admin_editCourse_contents seeded 2 "Y" "" 0
                          (mkCourse "Physics" "teacher2@example.com"
                             ["Newton's Laws"; "Thermodynamics"] [] [])
                          _ _ _ _)) _).
  - unfold Int.size. simpl. lia.
  - unfold Int.size, Int.int_max. simpl. lia.
  - reflexivity.
  - reflexivity.
  - reflexivity.
Defined.

(** ** Admin: adding a course *)

Lemma admin_addCourse_refuses_assigned_teacher_witness :
  courses (instance (snd (Admin.addCourse "Algebra II" "teacher1@example.com"
                            "y" "" "" seeded)))
  = courses (instance seeded).
Proof.
  apply (admin_addCourse_refuses_assigned_teacher
           "Algebra II" "teacher1@example.com" "y" "" "" seeded).
  simpl. rewrite !elem_of_cons. left. reflexivity.
Defined.

(** [Admin::addCourse] registers the teacher the admin agrees to
    register before the course is constructed and without validating the
    email: when the constructor then throws, for a bad course name or a
    bad email, the exception leaves [addCourse], no course is added and
    the new teacher stays among the users. *)
Theorem admin_addCourse_registers_before_validating
    (courseName teacherEmail : string) (teacherName teacherPassword : string)
    (w : World) :
  ~ registered w teacherEmail ->
  ~ teacherEmail ∈ map Course.getTeacherEmail (courses (instance w)) ->
  Validator.isValidString courseName = false \/
  Validator.isValidEmail teacherEmail = false ->
  fails_validation
    (Admin.addCourse courseName teacherEmail "y" teacherName teacherPassword w)
  /\
  snd (Admin.addCourse courseName teacherEmail "y" teacherName
         teacherPassword w)
  = mkWorld (instance w)
      (users w ++ [mkUser IsTeacher teacherName teacherEmail teacherPassword]).
Proof.
  intros Hnew Hfree Hbad. unfold fails_validation.
  rewrite admin_addCourse_eq. cbv zeta.
  destruct (existsb _ (users w)) eqn:Hreg.
  { apply existsb_email in Hreg. contradiction. }
  destruct (existsb _ (courses (instance w))) eqn:Hteach.
  { apply existsb_teacher in Hteach. contradiction. }
  simpl.
  destruct (Validator.isValidString courseName); simpl; [|eauto].
  destruct (Validator.isValidEmail teacherEmail); simpl; [|eauto].
  destruct Hbad; discriminate.
Qed.

Lemma admin_addCourse_registers_before_validating_witness :
  fails_validation (Admin.addCourse "Chemistry" "bob" "y" "Bob" "pw" seeded) /\
  snd (Admin.addCourse "Chemistry" "bob" "y" "Bob" "pw" seeded)
  = mkWorld (instance seeded)
      (users seeded ++ [mkUser IsTeacher "Bob" "bob" "pw"]).
Proof.
  apply (admin_addCourse_registers_before_validating
           "Chemistry" "bob" "Bob" "pw" seeded).
  - intros (u & Hu & Heq). simpl in Hu. rewrite !elem_of_cons in Hu.
    destruct Hu as [->|[->|[->|Hu]]]; try discriminate.
    apply elem_of_nil in Hu. destruct Hu.
  - simpl. rewrite !elem_of_cons. intros [H|[H|H]]; try discriminate.
    apply elem_of_nil in H. destruct H.
  - right. reflexivity.
Defined.

(** ** Teacher: the enrollment check of [addGrade] *)

(** [Teacher::addGrade] asks for no grade and adds none, not even to
    its copy of the course, when the email typed is not enrolled in the
    chosen course. *)
Theorem teacher_addGrade_needs_enrollment (self : User) (w : World)
    (typedIndex : list Z) (typedEmail : list string) (typedGrade : list Z)
    (k : nat) (c : Course) (e : string) :
  assigned_to self (courses (instance w)) !! k = Some c ->
  Validator.getValidatedIntInput typedIndex 1
    (Int.to_int (Int.size (assigned_to self (courses (instance w)))))
    = Some (Z.of_nat k + 1) ->
  Teacher.addGrade_email typedEmail = Some e ->
  (e ∉ enrolledStudents c) ->
  Teacher.addGrade_body self typedIndex typedEmail typedGrade
    (Teacher.mkFrame w [])
  = (Normal tt, Teacher.mkFrame w (assigned_to self (courses (instance w)))).
Proof.
  intros Hk Hidx Hemail Hno.
  destruct (assigned_nonempty _ _ _ _ Hk) as [Hcs Hcopies].
  apply existsb_eqb_not_elem_of in Hno.
  unfold Teacher.addGrade_body.
  unfold bind at 1. unfold get at 1. simpl.
  unfold LMSManager.getCourses. rewrite Hcs.
  unfold bind at 1. rewrite collect_eq.
  unfold bind at 1. unfold get at 1. simpl. rewrite Hcopies.
  unfold bind at 1. rewrite Hidx. simpl.
  replace (Z.to_nat (Z.of_nat k + 1 - 1)) with k by lia.
  unfold try_catch, bind, through, get. rewrite Hemail. simpl. rewrite Hk.
  simpl. rewrite list_insert_id by assumption.
  unfold Course.getStudents. rewrite Hno. reflexivity.
Qed.

Lemma teacher_addGrade_needs_enrollment_witness :
  let teacher2 := mkUser IsTeacher "teacher2" "teacher2@example.com"
                    "teacherpass" in
  Teacher.addGrade_body teacher2 [1] ["a@b.co"] [85] (Teacher.mkFrame seeded [])
  = (Normal tt,
     Teacher.mkFrame seeded (assigned_to teacher2 (courses (instance seeded)))).
Proof.
  intros teacher2.
  apply (teacher_addGrade_needs_enrollment teacher2 seeded [1] ["a@b.co"] [85]
           0 (mkCourse "Physics" "teacher2@example.com"
                ["Newton's Laws"; "Thermodynamics"] [] []) "a@b.co").
  - reflexivity.
  - reflexivity.
  - reflexivity.
  - apply not_elem_of_nil.
Defined.

(** ** Student *)

Lemma for_each_listed (keep : Course -> bool) (cs : list Course)
    (f : Student.Frame) :
  for_each cs (fun course => when (keep course) (Student.listed_push_back course)) f
  = (Normal tt,
     Student.mkFrame (Student.globals f)
       (Student.listed f ++ List.filter keep cs)).
Proof.
  revert f. induction cs as [|course cs IH]; intros f; simpl.
  - rewrite app_nil_r. destruct f; reflexivity.
  - unfold bind, when. destruct (keep course); simpl.
    + rewrite IH. simpl. rewrite <- app_assoc. reflexivity.
    + rewrite IH. reflexivity.
Qed.

(** [Student::enrollInCourse] never changes the globals. *)
Lemma student_enrollInCourse_keeps (self : User) (typedIndex : list Z) (w : World) :
  snd (Student.enrollInCourse self typedIndex w) = w.
Proof.
  unfold Student.enrollInCourse, Student.scoped, Student.enrollInCourse_body.
  unfold bind at 1. unfold get at 1. cbv beta iota.
  unfold bind at 1. rewrite for_each_listed. cbn [Student.globals Student.listed].
  unfold bind at 1. unfold get at 1. cbv beta iota. cbn [Student.listed].
  destruct (empty _); [reflexivity|].
  unfold bind at 1.
  destruct (Validator.getValidatedIntInput _ _ _) as [courseIndex|];
    [|reflexivity].
  unfold prompted. destruct (courseIndex =? 0); [reflexivity|].
  unfold try_catch, through. cbn [peek poke Student.chosen Student.listed].
  destruct (_ !! _) as [c|]; [|reflexivity].
  destruct (Course.enrollStudent _ c) as [[[]|x| |] c']; reflexivity.
Qed.

(** [Student::enrollInCourse] enrolls the student in its copy of the
    chosen course and returns, and the globals are what they were: the
    student is enrolled in no course of the registry. *)
Theorem student_enrollInCourse_is_lost (self : User) (w : World)
    (typedIndex : list Z) (k : nat) (c : Course) :
  unenrolled_courses self (courses (instance w)) !! k = Some c ->
  Validator.getValidatedIntInput typedIndex 0
    (Int.to_int (Int.size (unenrolled_courses self (courses (instance w)))))
    = Some (Z.of_nat k + 1) ->
  Validator.isValidEmail (getEmail self) = true ->
  Student.enrollInCourse_body self typedIndex (Student.mkFrame w [])
  = (Normal tt,
     Student.mkFrame w
       (<[k := Course.set_enrolledStudents
                 (enrolledStudents c ++ [getEmail self]) c]>
          (unenrolled_courses self (courses (instance w))))) /\
  Student.enrollInCourse self typedIndex w = (Normal tt, w).
Proof.
  intros Hk Hidx Hvalid.
  assert (Hbody :
    Student.enrollInCourse_body self typedIndex (Student.mkFrame w [])
    = (Normal tt,
       Student.mkFrame w
         (<[k := Course.set_enrolledStudents
                   (enrolledStudents c ++ [getEmail self]) c]>
            (unenrolled_courses self (courses (instance w)))))).
  { assert (Hfresh : Student.enrolled_in self c = false).
    { apply list_elem_of_lookup_2 in Hk.
      apply list_elem_of_In, filter_In in Hk as [_ Hk].
      apply negb_true_iff, Hk. }
    unfold Student.enrollInCourse_body, LMSManager.getCourses.
    unfold bind at 1. unfold get at 1. cbv beta iota.
    unfold bind at 1. rewrite for_each_listed.
    cbn [Student.globals Student.listed app].
    unfold bind at 1. unfold get at 1. cbv beta iota. cbn [Student.listed].
    fold (unenrolled_courses self (courses (instance w))).
    rewrite (empty_false_lookup _ _ _ Hk).
    unfold bind at 1. rewrite Hidx.
    unfold prompted.
    replace (Z.of_nat k + 1 =? 0) with false by (symmetry; apply Z.eqb_neq; lia).
    replace (Z.to_nat (Z.of_nat k + 1 - 1)) with k by lia.
    unfold try_catch, through. cbn [peek poke Student.chosen Student.listed].
    rewrite Hk, enrollStudent_eq, Hvalid.
    unfold Student.enrolled_in, Course.getStudents in Hfresh. rewrite Hfresh.
    reflexivity. }
  split; [exact Hbody|].
  unfold Student.enrollInCourse, Student.scoped. rewrite Hbody. reflexivity.
Qed.

Lemma student_enrollInCourse_is_lost_witness :
  let s := mkUser IsStudent "s" "s@x.y" "pw" in
  Student.enrollInCourse_body s [2] (Student.mkFrame seeded [])
  = (Normal tt,
     Student.mkFrame seeded
       (<[1%nat := mkCourse "Physics" "teacher2@example.com"
                     ["Newton's Laws"; "Thermodynamics"] [] ["s@x.y"]]>
          (unenrolled_courses s (courses (instance seeded))))) /\
  Student.enrollInCourse s [2] seeded = (Normal tt, seeded).
Proof.
  intros s.
  apply (student_enrollInCourse_is_lost s seeded [2] 1
           (mkCourse "Physics" "teacher2@example.com"
              ["Newton's Laws"; "Thermodynamics"] [] [])).
  - reflexivity.
  - reflexivity.
  - reflexivity.
Defined.

Lemma first_grade_found (e : string) (before after : list (string * Z)) (g : Z) :
  (forall p, p ∈ before -> fst p <> e) ->
  Student.first_grade e (before ++ (e, g) :: after) = Some g.
Proof.
  induction before as [|p before IH]; intros Hno; simpl.
  - rewrite String.eqb_refl. reflexivity.
  - destruct (String.eqb_spec (fst p) e) as [Heq|_].
    + destruct (Hno p); [left | assumption].
    + apply IH. intros q Hq. apply Hno. right. assumption.
Qed.

Lemma first_grade_none (e : string) (gs : list (string * Z)) :
  (forall p, p ∈ gs -> fst p <> e) -> Student.first_grade e gs = None.
Proof.
  induction gs as [|p gs IH]; intros Hno; simpl; [reflexivity|].
  destruct (String.eqb_spec (fst p) e) as [Heq|_].
  - destruct (Hno p); [left | assumption].
  - apply IH. intros q Hq. apply Hno. right. assumption.
Qed.

Lemma viewGrades_at (self : User) (w : World) (typedIndex : list Z)
    (k : nat) (c : Course) :
  enrolled_courses self (courses (instance w)) !! k = Some c ->
  Validator.getValidatedIntInput typedIndex 0
    (Int.to_int (Int.size (enrolled_courses self (courses (instance w)))))
    = Some (Z.of_nat k + 1) ->
  Student.viewGrades self typedIndex w =
  (Normal
     match Student.first_grade (getEmail self) (grades c) with
     | Some grade => YourGrade (courseName c) grade
     | None => NoGradeAvailable
     end, w).
Proof.
  intros Hk Hidx.
  unfold Student.viewGrades, Student.scoped, Student.viewGrades_body,
    LMSManager.getCourses.
  unfold bind at 1. unfold get at 1. cbv beta iota.
  unfold bind at 1. rewrite for_each_listed.
  cbn [Student.globals Student.listed app].
  unfold bind at 1. unfold get at 1. cbv beta iota. cbn [Student.listed].
  fold (enrolled_courses self (courses (instance w))).
  rewrite (empty_false_lookup _ _ _ Hk).
  unfold bind at 1. rewrite Hidx. unfold prompted.
  replace (Z.of_nat k + 1 =? 0) with false by (symmetry; apply Z.eqb_neq; lia).
  replace (Z.to_nat (Z.of_nat k + 1 - 1)) with k by lia.
  unfold try_catch, bind, through, get.
  cbn [peek poke Student.chosen Student.listed]. rewrite Hk.
  unfold Course.getGrades, Course.getCourseName.
  destruct (Student.first_grade _ _); reflexivity.
Qed.

(** [Student::viewGrades] shows, for the chosen course, the grade of
    the first pair recorded for the student: pairs recorded later for the
    same student are never shown; without a pair for the student it
    reports that no grade is available.  It changes nothing. *)
Theorem student_viewGrades_first_pair (self : User) (w : World)
    (typedIndex : list Z) (k : nat) (c : Course) :
  enrolled_courses self (courses (instance w)) !! k = Some c ->
  Validator.getValidatedIntInput typedIndex 0
    (Int.to_int (Int.size (enrolled_courses self (courses (instance w)))))
    = Some (Z.of_nat k + 1) ->
  (forall before g after,
     grades c = before ++ (getEmail self, g) :: after ->
     (forall p, p ∈ before -> fst p <> getEmail self) ->
     Student.viewGrades self typedIndex w =
     (Normal (YourGrade (Course.getCourseName c) g), w)) /\
  ((forall p, p ∈ grades c -> fst p <> getEmail self) ->
   Student.viewGrades self typedIndex w = (Normal NoGradeAvailable, w)).
Proof.
  intros Hk Hidx. rewrite (viewGrades_at self w typedIndex k c Hk Hidx). split.
  - intros before g after Hg Hno. rewrite Hg, first_grade_found by assumption.
    reflexivity.
  - intros Hno. rewrite first_grade_none by assumption. reflexivity.
Qed.

Lemma student_viewGrades_first_pair_witness :
  let s := mkUser IsStudent "s" "s@x.y" "pw" in
  let w := mkWorld
             (mkLMSManager
                [mkCourse "Physics" "teacher2@example.com" []
                   [("a@b.co", 40); ("s@x.y", 70); ("s@x.y", 95)]
                   ["a@b.co"; "s@x.y"]])
             [s] in
  Student.viewGrades s [1] w = (Normal (YourGrade "Physics" 70), w).
Proof.
  intros s w.
  refine (proj1 (student_viewGrades_first_pair s w [1] 0
                   (mkCourse "Physics" "teacher2@example.com" []
                      [("a@b.co", 40); ("s@x.y", 70); ("s@x.y", 95)]
                      ["a@b.co"; "s@x.y"]) _ _)
            [("a@b.co", 40)] 70 [("s@x.y", 95)] _ _).
  - reflexivity.
  - reflexivity.
  - reflexivity.
  - intros p Hp. apply list_elem_of_singleton in Hp. subst. discriminate.
Defined.

(** ** Login *)

(** The login loop of [main] finds a user exactly when some user has
    both the email and the password typed, and the user it finds is the
    first such user of the list. *)
Theorem main_login_first_match (email password : string) (us : list User) :
  match main_login email password us with
  | Some user =>
      exists before after,
        us = before ++ user :: after /\
        getEmail user = email /\ getPassword user = password /\
        Forall (fun u => ~ (getEmail u = email /\ getPassword u = password))
               before
  | None =>
      Forall (fun u => ~ (getEmail u = email /\ getPassword u = password)) us
  end.
Proof.
  induction us as [|u us IH]; simpl; [constructor|].
  destruct (String.eqb_spec (getEmail u) email) as [He|He]; simpl.
  - destruct (String.eqb_spec (getPassword u) password) as [Hp|Hp].
    + exists [], us. repeat split; auto.
    + destruct (main_login email password us) as [user|].
      * destruct IH as (before & after & -> & H1 & H2 & H3).
        exists (u :: before), after. repeat split; auto.
        constructor; [tauto | assumption].
      * constructor; [tauto | assumption].
  - destruct (main_login email password us) as [user|].
    + destruct IH as (before & after & -> & H1 & H2 & H3).
      exists (u :: before), after. repeat split; auto.
      constructor; [tauto | assumption].
    + constructor; [tauto | assumption].
Qed.

(** ** What the operations keep *)

Lemma call_sound (m : Course.method) (c : Course) :
  course_sound c -> course_sound (snd (Course.call m c)).
Proof.
  intros (Hname & Hteacher & Hcontents & Hnodup & Hemails).
  pose proof (call_keeps_identity m c) as [Hn Ht].
  pose proof (call_keeps_NoDup m c Hnodup) as Hnd.
  unfold course_sound. rewrite Hn, Ht.
  split; [assumption|]. split; [assumption|].
  split; [|split; [assumption|]].
  - destruct m as [content|index|e g|e|e]; simpl.
    + rewrite addContent_eq.
      destruct (Validator.isValidString content) eqn:Hv; [|assumption].
      simpl. apply Forall_app. split; [assumption|].
      constructor; [assumption | constructor].
    + rewrite removeContent_eq.
      destruct (Validator.isValidIndex _ _); [|assumption].
      simpl. apply Forall_delete. assumption.
    + rewrite addGrade_eq.
      destruct (Validator.isValidEmail e), (Validator.isValidGrade g);
        assumption.
    + rewrite enrollStudent_eq.
      destruct (Validator.isValidEmail e); [destruct (existsb _ _)|];
        assumption.
    + destruct (removeStudent_cases e c) as [[_ ->]|(l1 & l2 & _ & _ & ->)];
        assumption.
  - destruct m as [content|index|e g|e|e]; simpl.
    + rewrite addContent_eq.
      destruct (Validator.isValidString content); assumption.
    + rewrite removeContent_eq.
      destruct (Validator.isValidIndex _ _); assumption.
    + rewrite addGrade_eq.
      destruct (Validator.isValidEmail e), (Validator.isValidGrade g);
        assumption.
    + rewrite enrollStudent_eq.
      destruct (Validator.isValidEmail e) eqn:Hv; [|assumption].
      destruct (existsb _ _); [assumption|]. simpl.
      apply Forall_app. split; [assumption|].
      constructor; [assumption | constructor].
    + destruct (removeStudent_cases e c) as [[_ ->]|(l1 & l2 & Hc & _ & ->)];
        [assumption|]. simpl.
      rewrite Hc in Hemails. apply Forall_app in Hemails as [H1 H2].
      apply Forall_cons in H2 as [_ H2]. apply Forall_app. auto.
Qed.

Lemma call_enrolled (m : Course.method) (c : Course) (e' : string) :
  e' ∈ enrolledStudents (snd (Course.call m c)) ->
  e' ∈ enrolledStudents c \/ m = Course.EnrollStudent e'.
Proof.
  destruct m as [content|index|e g|e|e]; simpl.
  - rewrite addContent_eq. destruct (Validator.isValidString content); auto.
  - rewrite removeContent_eq. destruct (Validator.isValidIndex _ _); auto.
  - rewrite addGrade_eq.
    destruct (Validator.isValidEmail e), (Validator.isValidGrade g); auto.
  - rewrite enrollStudent_eq.
    destruct (Validator.isValidEmail e); [destruct (existsb _ _)|]; auto.
    simpl. rewrite elem_of_app, list_elem_of_singleton.
    intros [H| ->]; auto.
  - destruct (removeStudent_cases e c) as [[_ ->]|(l1 & l2 & Hc & _ & ->)];
      auto.
    simpl. rewrite Hc, !elem_of_app, elem_of_cons. intros [H|H]; auto.
Qed.

Lemma call_grades (w : World) (m : Course.method) (c : Course) :
  registry_call w m -> grades (snd (Course.call m c)) = grades c.
Proof.
  destruct m as [content|index|e g|e|e]; simpl; intros Hm.
  - rewrite addContent_eq. destruct (Validator.isValidString content); auto.
  - rewrite removeContent_eq. destruct (Validator.isValidIndex _ _); auto.
  - destruct Hm.
  - rewrite enrollStudent_eq.
    destruct (Validator.isValidEmail e); [destruct (existsb _ _)|]; auto.
  - destruct (removeStudent_cases e c) as [[_ ->]|(l1 & l2 & _ & _ & ->)];
      auto.
Qed.

Lemma elem_of_insert_inv {A} (l : list A) (i : nat) (x y : A) :
  y ∈ <[i := x]> l -> y = x \/ y ∈ l.
Proof.
  intros Hy. apply list_elem_of_lookup in Hy as [j Hj].
  apply list_lookup_insert_Some in Hj as [(-> & -> & _)|[_ Hj]].
  - left. reflexivity.
  - right. apply list_elem_of_lookup. eauto.
Qed.

Lemma registered_more (w : World) (m : LMSManager) (us : list User) (e : string) :
  registered w e -> registered (mkWorld m (users w ++ us)) e.
Proof.
  intros (u & Hu & He). exists u. split; [|assumption].
  simpl. apply elem_of_app. left. assumption.
Qed.

Lemma registered_same_users (w : World) (m : LMSManager) (e : string) :
  registered w e -> registered (mkWorld m (users w)) e.
Proof. intros (u & Hu & He). exists u. auto. Qed.

Lemma change_consistent (w w' : World) :
  change w w' -> consistent w -> consistent w'.
Proof.
  induction 1 as [w | w u Hnew | w i c m Hc Hm | w name teacher Hn Ht Hfree Hreg
                  | w i | w1 w2 w3 _ IH12 _ IH23];
    intros [Husers Hteachers Hsound Hstudents Hteach].
  - constructor; assumption.
  - constructor; simpl; try assumption.
    + rewrite map_app. simpl. apply NoDup_app. split; [assumption|].
      split; [|apply NoDup_singleton].
      intros e He Heu. apply list_elem_of_singleton in Heu. subst.
      apply Hnew. change (map getEmail (users w)) with (getEmail <$> users w) in He.
      apply list_elem_of_fmap in He as (u' & Heq & Hu'). exists u'. auto.
    + intros c e Hc He. apply (registered_more w (instance w) [u]). eauto.
    + intros c Hc. apply (registered_more w (instance w) [u]). eauto.
  - pose proof (call_keeps_identity m c) as [_ Hsame].
    constructor; simpl.
    + assumption.
    + change (map Course.getTeacherEmail ?l) with (Course.getTeacherEmail <$> l).
      rewrite list_fmap_insert. unfold Course.getTeacherEmail at 1.
      rewrite Hsame. rewrite list_insert_id; [assumption|].
      rewrite list_lookup_fmap, Hc. reflexivity.
    + apply Forall_insert; [assumption|]. apply call_sound.
      rewrite Forall_forall in Hsound. apply Hsound.
      apply list_elem_of_lookup. eauto.
    + intros c' e Hc' He. apply registered_same_users.
      apply elem_of_insert_inv in Hc' as [->|Hc'].
      * apply call_enrolled in He as [He| ->].
        -- apply (Hstudents c); [|assumption]. apply list_elem_of_lookup. eauto.
        -- exact Hm.
      * eauto.
    + intros c' Hc'. apply registered_same_users.
      apply elem_of_insert_inv in Hc' as [->|Hc'].
      * rewrite Hsame. apply Hteach. apply list_elem_of_lookup. eauto.
      * eauto.
  - constructor; simpl.
    + assumption.
    + rewrite map_app. simpl. apply NoDup_app. split; [assumption|].
      split; [|apply NoDup_singleton].
      intros e He Het. apply list_elem_of_singleton in Het. subst.
      contradiction.
    + apply Forall_app. split; [assumption|].
      constructor; [|constructor]. unfold course_sound. simpl.
      repeat split; try assumption; constructor.
    + intros c e Hc He. apply registered_same_users.
      apply elem_of_app in Hc as [Hc|Hc]; [eauto|].
      apply list_elem_of_singleton in Hc. subst. simpl in He.
      apply elem_of_nil in He. destruct He.
    + intros c Hc. apply registered_same_users.
      apply elem_of_app in Hc as [Hc|Hc]; [eauto|].
      apply list_elem_of_singleton in Hc. subst. exact Hreg.
  - constructor; simpl.
    + assumption.
    + change (map Course.getTeacherEmail ?l) with (Course.getTeacherEmail <$> l).
      rewrite list_fmap_delete.
      apply (sublist_NoDup _ _ Hteachers), sublist_delete.
    + apply Forall_delete. assumption.
    + intros c e Hc He. apply registered_same_users.
      apply list_elem_of_delete_inv in Hc. eauto.
    + intros c Hc. apply registered_same_users.
      apply list_elem_of_delete_inv in Hc. eauto.
  - apply IH23, IH12. constructor; assumption.
Qed.

Lemma change_grades (w w' : World) :
  change w w' ->
  forall c', c' ∈ courses (instance w') ->
    grades c' = [] \/
    exists c, c ∈ courses (instance w) /\ grades c' = grades c.
Proof.
  induction 1 as [w | w u Hnew | w i c m Hc Hm | w name teacher Hn Ht Hfree Hreg
                  | w i | w1 w2 w3 _ IH12 _ IH23];
    intros c' Hc'; simpl in Hc'.
  - right. eauto.
  - right. eauto.
  - right. apply elem_of_insert_inv in Hc' as [->|Hc']; [|eauto].
    exists c. split; [apply list_elem_of_lookup; eauto|].
    apply (call_grades w), Hm.
  - apply elem_of_app in Hc' as [Hc'|Hc']; [right; eauto|].
    apply list_elem_of_singleton in Hc'. subst. left. reflexivity.
  - right. apply list_elem_of_delete_inv in Hc'. eauto.
  - destruct (IH23 c' Hc') as [Hnone|(c2 & Hc2 & Heq)]; [auto|].
    destruct (IH12 c2 Hc2) as [Hnone|(c1 & Hc1 & Heq1)].
    + left. congruence.
    + right. exists c1. split; [assumption | congruence].
Qed.

Lemma in_int_or_not (z : Z) : Int.in_int z \/ ~ Int.in_int z.
Proof. unfold Int.in_int. lia. Qed.

Lemma change_set_course (w : World) (i : nat) (c : Course) (m : Course.method) :
  courses (instance w) !! i = Some c ->
  registry_call w m ->
  change w (set_course i (snd (Course.call m c)) w).
Proof. intros Hc Hm. apply (change_call w i c m Hc Hm). Qed.

Lemma admin_addCourse_change (courseName teacherEmail : string)
    (addTeacher : ascii) (teacherName teacherPassword : string) (w : World) :
  change w (snd (Admin.addCourse courseName teacherEmail addTeacher
                   teacherName teacherPassword w)).
Proof.
  rewrite admin_addCourse_eq. cbv zeta.
  destruct (existsb _ (users w)) eqn:Hreg; cbn [negb andb].
  - apply existsb_email in Hreg.
    destruct (existsb _ (courses (instance w))) eqn:Hteach;
      [apply change_none|].
    destruct (negb (Validator.isValidString courseName)) eqn:Hn;
      [apply change_none|].
    destruct (negb (Validator.isValidEmail teacherEmail)) eqn:He;
      [apply change_none|].
    apply negb_false_iff in Hn, He. cbn [snd].
    apply change_add; try assumption.
    intros Hin. apply existsb_teacher in Hin. congruence.
  - assert (Hnew : ~ registered w teacherEmail).
    { intros Hr. apply existsb_email in Hr. congruence. }
    destruct (Ascii.eqb addTeacher "y" || Ascii.eqb addTeacher "Y");
      cbn [negb]; [|apply change_none].
    pose (u := mkUser IsTeacher teacherName teacherEmail teacherPassword).
    assert (Hu : change w (mkWorld (instance w) (users w ++ [u]))).
    { apply change_user. exact Hnew. }
    destruct (existsb _ (courses (instance w))) eqn:Hteach; [exact Hu|].
    destruct (negb (Validator.isValidString courseName)) eqn:Hn; [exact Hu|].
    destruct (negb (Validator.isValidEmail teacherEmail)) eqn:He; [exact Hu|].
    apply negb_false_iff in Hn, He. cbn [snd users].
    apply (change_then _ _ _ Hu).
    apply (change_add (mkWorld (instance w) (users w ++ [u]))); try assumption.
    + intros Hin. apply existsb_teacher in Hin. simpl in Hin. congruence.
    + exists u. split; [|reflexivity]. simpl. apply elem_of_app. right. left.
Qed.

Lemma enrollStudent_email_cases (typed : list string) (w : World) :
  Admin.enrollStudent_email typed w = (Starved, w) \/
  Admin.enrollStudent_email typed w = (Normal None, w) \/
  exists e,
    Admin.enrollStudent_email typed w = (Normal (Some e), w) /\
    Validator.isValidEmail e = true /\ ~ registered w e.
Proof.
  induction typed as [|e typed IH]; simpl; [left; reflexivity|].
  destruct (Validator.isValidEmail e) eqn:Hv; [|exact IH].
  unfold bind, get, ret.
  destruct (existsb _ (users w)) eqn:Hreg; [right; left; reflexivity|].
  right. right. exists e. split; [reflexivity|]. split; [assumption|].
  intros Hr. apply existsb_email in Hr. congruence.
Qed.

Lemma admin_enrollStudent_change (typedIndex : list Z)
    (typedEmail : list string) (studentPassword : string) (w : World) :
  change w (snd (Admin.enrollStudent typedIndex typedEmail studentPassword w)).
Proof.
  unfold Admin.enrollStudent, LMSManager.getCourses.
  unfold bind at 1. unfold get at 1. cbv beta iota zeta.
  destruct (empty (courses (instance w))); [apply change_none|].
  unfold bind at 1.
  destruct (Validator.getValidatedIntInput _ _ _) as [userIndex|];
    [|apply change_none].
  unfold prompted. unfold try_catch. unfold bind at 1.
  rewrite through_getCourse.
  destruct (Validator.isValidIndex (userIndex - 1) _) eqn:Hvalid;
    [|apply change_none].
  destruct (isValidIndex_lookup _ _ Hvalid) as [c Hc].
  unfold bind at 1.
  destruct (enrollStudent_email_cases typedEmail w)
    as [-> | [-> | (e & -> & Hv & Hnew)]];
    [apply change_none | apply change_none |].
  set (u := mkUser IsStudent
              (String.substring 0 (Z.to_nat (Validator.find e "@"%char)) e)
              e studentPassword).
  unfold bind, users_push_back, modify.
  set (w1 := mkWorld (instance w) (users w ++ [u])).
  assert (Hu : change w w1) by (apply change_user; exact Hnew).
  rewrite (through_slot w1 _ c _ Hc).
  assert (Hcall : change w1
            (set_course (Z.to_nat (userIndex - 1))
               (snd (Course.enrollStudent e c)) w1)).
  { apply (change_set_course w1 _ c (Course.EnrollStudent e) Hc).
    exists u. split; [|reflexivity]. simpl. apply elem_of_app. right. left. }
  destruct (Course.enrollStudent e c) as [[[]|x| |] c']; simpl in *;
    apply (change_then _ _ _ Hu Hcall).
Qed.

Lemma admin_removeStudent_change (userIndex : Z) (e : string) (w : World) :
  change w (snd (Admin.removeStudent userIndex e w)).
Proof.
  destruct (in_int_or_not (userIndex - 1)) as [Hint|Hint].
  2:{ rewrite admin_removeStudent_overflow by assumption. apply change_none. }
  destruct (Validator.isValidIndex (userIndex - 1)
              (Int.to_int (Int.size (courses (instance w))))) eqn:Hvalid.
  2:{ rewrite admin_removeStudent_outside by assumption. apply change_none. }
  destruct (isValidIndex_lookup _ _ Hvalid) as [c Hc].
  rewrite (admin_removeStudent_at w userIndex e c Hint Hvalid Hc).
  destruct (empty (enrolledStudents c)); [apply change_none|].
  apply (change_set_course w _ c (Course.RemoveStudent e) Hc). exact I.
Qed.

Lemma admin_deleteCourse_change (index : Z) (w : World) :
  change w (snd (Admin.deleteCourse index w)).
Proof.
  destruct ((index <? 1) ||
            (Int.size (courses (instance w)) <? Int.wrap_size_t index))
    eqn:Hrange.
  { rewrite admin_deleteCourse_refused by assumption. apply change_none. }
  destruct (courses (instance w) !! Z.to_nat (index - 1)) as [c|] eqn:Hc.
  - rewrite (admin_deleteCourse_at w index c Hrange Hc).
    destruct (Validator.isValidIndex _ _); [|apply change_none].
    apply change_delete.
  - unfold Admin.deleteCourse, LMSManager.getCourses.
    unfold bind at 1. unfold get at 1. cbv beta iota zeta.
    destruct (empty (courses (instance w))); [apply change_none|].
    unfold try_catch. unfold bind at 1. rewrite Hrange.
    unfold when, ret at 1. unfold bind at 1.
    rewrite (through_slot_outside _ _ _ Hc). apply change_none.
Qed.

Lemma admin_editCourse_change (userIndex : Z) (choice : ascii)
    (contentChoice : Z) (content : string) (userContentIndex : Z) (w : World) :
  change w (snd (Admin.editCourse userIndex choice contentChoice content
                   userContentIndex w)).
Proof.
  destruct (in_int_or_not (userIndex - 1)) as [Hint|Hint].
  2:{ rewrite admin_editCourse_overflow by assumption. apply change_none. }
  destruct (Validator.isValidIndex (userIndex - 1)
              (Int.to_int (Int.size (courses (instance w))))) eqn:Hvalid.
  2:{ rewrite admin_editCourse_outside by assumption. apply change_none. }
  destruct (isValidIndex_lookup _ _ Hvalid) as [c Hc].
  rewrite (admin_editCourse_at w userIndex choice contentChoice content
             userContentIndex c Hint Hvalid Hc).
  destruct (Ascii.eqb (tolower choice) "y"); [|apply change_none].
  destruct (contentChoice =? 1).
  { destruct (Validator.isValidString content) eqn:Hv; [|apply change_none].
    replace (Course.set_contents (contents c ++ [content]) c)
      with (snd (Course.call (Course.AddContent content) c))
      by (simpl; rewrite addContent_eq, Hv; reflexivity).
    apply (change_set_course w _ c _ Hc). exact I. }
  destruct (contentChoice =? 2); [|apply change_none].
  destruct (empty (contents c)); [apply change_none|].
  destruct ((Int.int_min <=? userContentIndex - 1) &&
            (userContentIndex - 1 <=? Int.int_max)); [|apply change_none].
  destruct (Validator.isValidIndex (userContentIndex - 1) _) eqn:Hv;
    [|apply change_none].
  replace (Course.set_contents
             (delete (Z.to_nat (userContentIndex - 1)) (contents c)) c)
    with (snd (Course.call (Course.RemoveContent (userContentIndex - 1)) c))
    by (simpl; rewrite removeContent_eq, Hv; reflexivity).
  apply (change_set_course w _ c _ Hc). exact I.
Qed.

(** Every operation changes the globals only by registering a user
    with a new email, by a call of [addContent], [removeContent],
    [removeStudent] or, for the email of a user, [enrollStudent] on a
    course of the registry, by appending a constructed course whose
    teacher is a user without a course, or by deleting a course. *)
Lemma perform_change (o : operation) (w : World) :
  change w (snd (perform o w)).
Proof.
  destruct o; simpl.
  - apply admin_addCourse_change.
  - apply admin_enrollStudent_change.
  - apply admin_removeStudent_change.
  - apply admin_deleteCourse_change.
  - apply admin_editCourse_change.
  - unfold Teacher.addGrade.
    rewrite scoped_keeps by apply keeps_addGrade_body. apply change_none.
  - unfold Teacher.addContent.
    rewrite scoped_keeps by apply keeps_addContent_body. apply change_none.
  - rewrite student_enrollInCourse_keeps. apply change_none.
Qed.

Lemma session_change (os : list operation) (w : World) :
  change w (snd (session os w)).
Proof.
  revert w. induction os as [|o os IH]; intros w; [apply change_none|].
  unfold session in *. simpl. unfold bind.
  pose proof (perform_change o w) as Ho.
  destruct (perform o w) as [[[]|x| |] w1]; simpl in *; try exact Ho.
  apply (change_then _ _ _ Ho), IH.
Qed.

Lemma seeded_consistent : consistent seeded.
Proof.
  constructor.
  - change (users seeded) with
      [mkUser IsAdmin "admin1" "admin1@example.com" "adminpass";
       mkUser IsTeacher "teacher1" "teacher1@example.com" "teacherpass";
       mkUser IsTeacher "teacher2" "teacher2@example.com" "teacherpass"].
    simpl. repeat constructor; rewrite ?elem_of_cons, ?elem_of_nil;
      intros H; repeat destruct H as [H|H]; try discriminate; assumption.
  - change (courses (instance seeded)) with
      [mkCourse "Mathematics" "teacher1@example.com"
         ["Introduction to Algebra"; "Advanced Calculus"] [] [];
       mkCourse "Physics" "teacher2@example.com"
         ["Newton's Laws"; "Thermodynamics"] [] []].
    simpl. repeat constructor; rewrite ?elem_of_cons, ?elem_of_nil;
      intros H; repeat destruct H as [H|H]; try discriminate; assumption.
  - change (courses (instance seeded)) with
      [mkCourse "Mathematics" "teacher1@example.com"
         ["Introduction to Algebra"; "Advanced Calculus"] [] [];
       mkCourse "Physics" "teacher2@example.com"
         ["Newton's Laws"; "Thermodynamics"] [] []].
    repeat constructor.
  - intros c e Hc He.
    change (courses (instance seeded)) with
      [mkCourse "Mathematics" "teacher1@example.com"
         ["Introduction to Algebra"; "Advanced Calculus"] [] [];
       mkCourse "Physics" "teacher2@example.com"
         ["Newton's Laws"; "Thermodynamics"] [] []] in Hc.
    rewrite !elem_of_cons, elem_of_nil in Hc.
    destruct Hc as [->|[->|[]]]; simpl in He; apply elem_of_nil in He;
      destruct He.
  - intros c Hc.
    change (courses (instance seeded)) with
      [mkCourse "Mathematics" "teacher1@example.com"
         ["Introduction to Algebra"; "Advanced Calculus"] [] [];
       mkCourse "Physics" "teacher2@example.com"
         ["Newton's Laws"; "Thermodynamics"] [] []] in Hc.
    rewrite !elem_of_cons, elem_of_nil in Hc.
    destruct Hc as [->|[->|[]]]; simpl.
    + exists (mkUser IsTeacher "teacher1" "teacher1@example.com" "teacherpass").
      split; [|reflexivity]. right. left.
    + exists (mkUser IsTeacher "teacher2" "teacher2@example.com" "teacherpass").
      split; [|reflexivity]. right. right. left.
Qed.

(** From consistent globals, every writing operation of the menus, and
    every run of such operations, leaves consistent globals: no two
    users with one email, no two courses with one teacher, every course
    with a valid name, a valid teacher email, valid contents and an
    enrollment of valid emails without duplicates, and only emails of
    users as teachers and as enrolled students. *)
Theorem operations_keep_globals_consistent (w : World) :
  consistent w ->
  (forall o : operation, consistent (snd (perform o w))) /\
  (forall os : list operation, consistent (snd (session os w))).
Proof.
  intros Hw. split.
  - intros o. apply (change_consistent w); [apply perform_change | exact Hw].
  - intros os. apply (change_consistent w); [apply session_change | exact Hw].
Qed.

Lemma operations_keep_globals_consistent_witness :
  (forall o : operation, consistent (snd (perform o seeded))) /\
  (forall os : list operation, consistent (snd (session os seeded))).
Proof.
  apply (operations_keep_globals_consistent seeded). exact seeded_consistent.
Defined.

(** No run of operations records a grade in the registry: a course of
    the registry after the run has no grades or the grades of a course
    that was there before the run. *)
Theorem no_operation_records_a_grade
    (os : list operation) (w : World) (c' : Course) :
  c' ∈ courses (instance (snd (session os w))) ->
  grades c' = [] \/
  exists c, c ∈ courses (instance w) /\ grades c' = grades c.
Proof. apply change_grades, session_change. Qed.

Lemma no_operation_records_a_grade_witness :
  let teacher1 := mkUser IsTeacher "teacher1" "teacher1@example.com"
                    "teacherpass" in
  let os := [AdminEnrollStudent [1] ["s@x.y"] "pw";
             TeacherAddGrade teacher1 [1] ["s@x.y"] [85]] in
  let c' := mkCourse "Mathematics" "teacher1@example.com"
              ["Introduction to Algebra"; "Advanced Calculus"] [] ["s@x.y"] in
  grades c' = [] \/
  exists c, c ∈ courses (instance seeded) /\ grades c' = grades c.
Proof.
  intros teacher1 os c'.
  apply (no_operation_records_a_grade os seeded c').
  left.
Defined.

Lemma viewGrades_without_grades (self : User) (typedIndex : list Z) (w : World) :
  (forall c, c ∈ courses (instance w) -> grades c = []) ->
  forall courseName grade,
    fst (Student.viewGrades self typedIndex w)
    <> Normal (YourGrade courseName grade).
Proof.
  intros Hnone courseName grade.
  unfold Student.viewGrades, Student.scoped, Student.viewGrades_body,
    LMSManager.getCourses.
  unfold bind at 1. unfold get at 1. cbv beta iota.
  unfold bind at 1. rewrite for_each_listed.
  cbn [Student.globals Student.listed app].
  unfold bind at 1. unfold get at 1. cbv beta iota. cbn [Student.listed].
  destruct (empty _); [discriminate|].
  unfold bind at 1.
  destruct (Validator.getValidatedIntInput _ _ _) as [index|];
    [|discriminate].
  unfold prompted. destruct (index =? 0); [discriminate|].
  unfold try_catch, bind, through, get.
  cbn [peek poke Student.chosen Student.listed].
  destruct (_ !! _) as [c|] eqn:Hc; [|discriminate].
  assert (Hin : c ∈ courses (instance w)).
  { apply list_elem_of_lookup_2 in Hc.
    apply list_elem_of_In, filter_In in Hc as [Hc _].
    apply list_elem_of_In, Hc. }
  unfold Course.getGrades. rewrite (Hnone c Hin). discriminate.
Qed.

(** In a run that starts from the seeded globals, [Student::viewGrades]
    never shows a grade, whoever asks and whatever was done before:
    [Teacher::addGrade] writes to a copy and nothing else adds grades. *)
Theorem no_grade_is_ever_shown
    (os : list operation) (self : User) (typedIndex : list Z) :
  shows_grade
    (fst (Student.viewGrades self typedIndex (snd (session os seeded))))
  = false.
Proof.
  assert (Hnone : forall c,
            c ∈ courses (instance (snd (session os seeded))) -> grades c = []).
  { intros c Hc.
    destruct (change_grades _ _ (session_change os seeded) c Hc)
      as [Hnone|(c0 & Hc0 & Heq)]; [assumption|].
    rewrite Heq.
    change (courses (instance seeded)) with
      [mkCourse "Mathematics" "teacher1@example.com"
         ["Introduction to Algebra"; "Advanced Calculus"] [] [];
       mkCourse "Physics" "teacher2@example.com"
         ["Newton's Laws"; "Thermodynamics"] [] []] in Hc0.
    rewrite !elem_of_cons, elem_of_nil in Hc0.
    destruct Hc0 as [->|[->|[]]]; reflexivity. }
  pose proof (viewGrades_without_grades self typedIndex _ Hnone) as Hno.
  destruct (fst (Student.viewGrades self typedIndex (snd (session os seeded))))
    as [[| |courseName grade| |]|x| |]; try reflexivity.
  destruct (Hno courseName grade). reflexivity.
Qed.

(** ** Instances of the lemmas on added courses and on copies *)

Lemma admin_addCourse_needs_registered_email_witness :
  exists u,
    u ∈ users (snd (Admin.addCourse "Chemistry" "carol@uni.edu" "y" "Carol"
                      "pw" seeded)) /\
    getEmail u = "carol@uni.edu".
Proof.
  apply (admin_addCourse_needs_registered_email
           "Chemistry" "carol@uni.edu" "y" "Carol" "pw" seeded).
  intros Heq. apply (f_equal length) in Heq. discriminate Heq.
Defined.

Lemma addContent_body_mutates_copy_witness :
  let teacher2 := mkUser IsTeacher "teacher2" "teacher2@example.com"
                    "teacherpass" in
  Teacher.addContent_body teacher2 [1] "Optics" (Teacher.mkFrame seeded [])
  = (Normal tt,
     Teacher.mkFrame seeded
       (<[0%nat := mkCourse "Physics" "teacher2@example.com"
                     ["Newton's Laws"; "Thermodynamics"; "Optics"] [] []]>
          (assigned_to teacher2 (courses (instance seeded))))).
Proof.
  intros teacher2.
  apply (addContent_body_mutates_copy teacher2 seeded [1] "Optics" 0
           (mkCourse "Physics" "teacher2@example.com"
              ["Newton's Laws"; "Thermodynamics"] [] [])).
  - reflexivity.
  - reflexivity.
  - reflexivity.
Defined.

Lemma addGrade_body_mutates_copy_witness :
  let teacher1 := mkUser IsTeacher "teacher1" "teacher1@example.com"
                    "teacherpass" in
  let w1 := snd (Admin.enrollStudent [1] ["s@x.y"] "pw" seeded) in
  Teacher.addGrade_body teacher1 [1] ["s@x.y"] [85] (Teacher.mkFrame w1 [])
  = (Normal tt,
     Teacher.mkFrame w1
       (<[0%nat := mkCourse "Mathematics" "teacher1@example.com"
                     ["Introduction to Algebra"; "Advanced Calculus"]
                     [("s@x.y", 85)] ["s@x.y"]]>
          (assigned_to teacher1 (courses (instance w1))))).
Proof.
  intros teacher1 w1.
  apply (addGrade_body_mutates_copy teacher1 w1 [1] ["s@x.y"] [85] 0
           (mkCourse "Mathematics" "teacher1@example.com"
              ["Introduction to Algebra"; "Advanced Calculus"] [] ["s@x.y"])
           "s@x.y" 85).
  - reflexivity.
  - reflexivity.
  - reflexivity.
  - reflexivity.
  - simpl. left.
  - reflexivity.
  - reflexivity.
Defined.
